(** * Relay and pairing engine: persistent cloud relay and persistent laptop client

    A shallow embedding of [persistent_cloud_relay.py] (the relay's
    [handle_client] coroutine with its three global stores and
    [save_persistent_data]) and of the pairing part of
    [persistent_laptop_client.py] ([generate_pairing_code],
    [handle_pair_request], [handle_message]), followed by the properties
    of the specification that concern them.

    Modelling conventions.
    - A Python value that is a [str] or [None] is an [option string]
      ([None] is Python's [None], also what [data.get] yields for a missing
      key).  Fields of incoming JSON objects, when present, are taken to be
      strings (a boolean for [accepted]); the opaque [payload] is its JSON
      text.
    - A [str] is written as the bytes of its UTF-8 encoding.  A surrogate
      code point, which [json.loads] yields for an unpaired [\udXXX]
      escape, is written in the same three-byte pattern; [str.encode()]
      raises [UnicodeEncodeError] on it.
    - [devices] is a [dict] iterated in insertion order by [pair_request]:
      an association list with Python's update-in-place.  [device_info] is
      only looked up: a [gmap].  [paired_devices] is a [set] of tuples: a
      [gset] of ordered pairs.  The order in which [register] iterates that
      set is left open: it is given by an oracle on the state of the
      process, of which only that it lists the elements of the set is ever
      assumed.
    - One message is handled at a time (the handler body is run to its end
      before another coroutine's body is considered).
    - [datetime.now().isoformat()] and [hashlib.sha256] are oracles;
      [random.randint(a, b)] is [a] plus the generator's draw below
      [b - a + 1].
    - A write to a websocket whose transport is gone raises; the set [lost]
      records those transports.
    - A save is the sequence of its file operations, so that a crash can
      be placed between two of them.  A file operation of
      [save_persistent_data] can raise: the state carries, for the saves to
      come, whether and where each one fails, and a failing save stops
      there, as the [try] block does, and returns normally.  Loading and
      the host's identity file are modelled with file operations that
      succeed. *)

From Stdlib Require Import Ascii.
From stdpp Require Import gmap strings list pretty.

Open Scope string_scope.

(** A Python [str]-or-[None]. *)
Abbreviation pyid := (option string).

(** [f"{x}"] for a [str]-or-[None]. *)
Definition py_str (x : pyid) : string := default "None" x.

(** Truthiness of a [str]-or-[None]: [None] and the empty string are falsy. *)
Definition py_truthy (x : pyid) : bool :=
  match x with
  | Some (String _ _) => true
  | _ => false
  end.

(** Whether the text holds a surrogate code point: the byte [0xED] followed
    by a byte in [0xA0..0xBF]. *)
Fixpoint has_surrogate (s : string) : bool :=
  match s with
  | EmptyString => false
  | String a tl =>
      match tl with
      | String b _ =>
          (N_of_ascii a =? 237)%N && (160 <=? N_of_ascii b)%N
          && (N_of_ascii b <=? 191)%N
      | EmptyString => false
      end
      || has_surrogate tl
  end.

(** [s.encode()]: the UTF-8 bytes, unless a surrogate makes it raise
    [UnicodeEncodeError] ([None]). *)
Definition str_encode (s : string) : option string :=
  if has_surrogate s then None else Some s.

(** [random.randint(a, b)] is [randrange(a, b + 1)], that is [a] plus
    [_randbelow(b - a + 1)]; [draw] stands for the generator's output, of
    which [_randbelow n] keeps a value below [n]. *)
Definition randbelow (n draw : Z) : Z := (draw `mod` n)%Z.
Definition randint (a b draw : Z) : Z := (a + randbelow (b - a + 1) draw)%Z.

(** An ASCII decimal digit. *)
Definition is_digit (c : ascii) : bool :=
  match c with
  | "0" | "1" | "2" | "3" | "4" | "5" | "6" | "7" | "8" | "9" => true
  | _ => false
  end%char.

(** ** Python dictionaries in insertion order *)

Module PyDict.
Section ordered.
Context {K V : Type} `{EqDecision K}.

(** [d.get(k)] / [k in d] *)
Fixpoint get (k : K) (d : list (K * V)) : option V :=
  match d with
  | [] => None
  | (k', v) :: d' => if decide (k' = k) then Some v else get k d'
  end.

Definition contains (k : K) (d : list (K * V)) : bool :=
  bool_decide (is_Some (get k d)).

(** [d[k] = v]: an existing key keeps its position, a new key goes last. *)
Fixpoint set (k : K) (v : V) (d : list (K * V)) : list (K * V) :=
  match d with
  | [] => [(k, v)]
  | (k', v') :: d' =>
      if decide (k' = k) then (k, v) :: d' else (k', v') :: set k v d'
  end.

(** [del d[k]] (for a key that is present; absent keys leave [d] as is). *)
Fixpoint del (k : K) (d : list (K * V)) : list (K * V) :=
  match d with
  | [] => []
  | (k', v') :: d' => if decide (k' = k) then d' else (k', v') :: del k d'
  end.

Definition keys (d : list (K * V)) : list K := d.*1.
End ordered.
End PyDict.

(** ** The relay: [persistent_cloud_relay.py] *)

Module Relay.

(** A websocket object (one per connection). *)
Definition conn := nat.

(** A value of the [device_info] dictionary. *)
Record device_record := DeviceRecord {
  device_type : pyid;
  device_name : string;
  fingerprint : string;
  first_seen : string;
  last_seen : string
}.

Global Instance device_record_eq_dec : EqDecision device_record.
Proof. solve_decision. Defined.

Definition touch (t : string) (r : device_record) : device_record :=
  DeviceRecord (device_type r) (device_name r) (fingerprint r) (first_seen r) t.

(** Decoded incoming messages, by their ['type'] field. *)
Inductive client_msg :=
  | Register (device_id device_type device_name : pyid)
  | PairRequest (pairing_code device_name : pyid)
  | PairResponse (target_device_id : pyid) (accepted : bool) (message : pyid)
  | UnpairDevice (target_device_id : pyid)
  | RelayMessage (target_device_id message_type : pyid) (payload : option string)
  | OtherType
  | InvalidJSON.

(** One element of the ['pairings'] list of [existing_pairings]. *)
Record pairing_entry := PairingEntry {
  peer_device_id : pyid;
  peer_device_name : string;
  peer_device_type : pyid
}.

(** Messages the relay writes to a websocket. *)
Inductive server_msg :=
  | Registered (device_id : pyid) (is_known_device : bool) (message : string)
  | ExistingPairings (pairings : list pairing_entry) (message : string)
  | PairRequestFwd (from_device_id pairing_code : pyid) (device_name : string)
  | PairingFailed (message : string)
  | Paired (peer_id : pyid) (peer_name : string) (is_persistent : bool)
           (message : string)
  | Unpaired (target_device_id : pyid) (message : string)
  | RelayMessageFwd (from_device_id : pyid) (message_type payload : string)
  | RelayFailed (message : string)
  | Error (message : string).

Global Instance pairing_entry_eq_dec : EqDecision pairing_entry.
Proof. solve_decision. Defined.
Global Instance server_msg_eq_dec : EqDecision server_msg.
Proof. solve_decision. Defined.

(** *** Durable storage *)

Definition DEVICES_FILE : string := "~/.laptop_remote_access/devices.json".
Definition PAIRINGS_FILE : string := "~/.laptop_remote_access/pairings.json".

(** What a file holds: after [open(path, 'w')] and before [json.dump] has
    returned, no complete document ([Truncated]); otherwise the document
    [json.dump] wrote. *)
Inductive file_content :=
  | Truncated
  | DevicesJson (d : gmap pyid device_record)
  | PairingsJson (l : list (pyid * pyid)).

Global Instance file_content_eq_dec : EqDecision file_content.
Proof. solve_decision. Defined.

Inductive fs_op :=
  | OpenW (path : string)
  | Dump (path : string) (c : file_content).

Definition fs_apply (fs : gmap string file_content) (op : fs_op)
  : gmap string file_content :=
  match op with
  | OpenW p => <[p := Truncated]> fs
  | Dump p c => <[p := c]> fs
  end.

Definition fs_run (ops : list fs_op) (fs : gmap string file_content)
  : gmap string file_content :=
  foldl fs_apply fs ops.

Arguments fs_run : simpl never.

(** *** Observable effects of a handler *)

(** [Saved d p] records a call of [save_persistent_data] with the stores it
    was called on; what reached the files is read off [disk]. *)
Inductive effect :=
  | Sent (ws : conn) (m : server_msg)
  | SendRaised (ws : conn) (m : server_msg)
  | Saved (d : gmap pyid device_record) (p : gset (pyid * pyid)).

Global Instance effect_eq_dec : EqDecision effect.
Proof. solve_decision. Defined.

(** *** The state of the relay process *)

(** Besides the three stores: the files, the local [device_id] of every
    running handler ([tasks]), the transports that are gone ([lost]), the
    number of clock readings so far, the effects so far, and what the file
    system does to the saves to come ([write_faults]): for each call of
    [save_persistent_data], in order, [None] when every file operation
    succeeds, or [Some k] when the operation at position [k] of [save_ops]
    raises.  Once the list is used up every operation succeeds. *)
Record relay := MkRelay {
  devices : list (pyid * conn);
  device_info : gmap pyid device_record;
  paired_devices : gset (pyid * pyid);
  disk : gmap string file_content;
  tasks : gmap conn pyid;
  lost : gset conn;
  ticks : nat;
  trace : list effect;
  write_faults : list (option nat)
}.

(** The process right after start-up on an empty data directory. *)
Definition initial : relay := MkRelay [] ∅ ∅ ∅ ∅ ∅ 0 [] [].

Definition with_devices (f : list (pyid * conn) → list (pyid * conn)) (st : relay) :=
  MkRelay (f (devices st)) (device_info st) (paired_devices st) (disk st)
          (tasks st) (lost st) (ticks st) (trace st) (write_faults st).
Definition with_device_info
    (f : gmap pyid device_record → gmap pyid device_record) (st : relay) :=
  MkRelay (devices st) (f (device_info st)) (paired_devices st) (disk st)
          (tasks st) (lost st) (ticks st) (trace st) (write_faults st).
Definition with_paired_devices
    (f : gset (pyid * pyid) → gset (pyid * pyid)) (st : relay) :=
  MkRelay (devices st) (device_info st) (f (paired_devices st)) (disk st)
          (tasks st) (lost st) (ticks st) (trace st) (write_faults st).
Definition with_disk
    (f : gmap string file_content → gmap string file_content) (st : relay) :=
  MkRelay (devices st) (device_info st) (paired_devices st) (f (disk st))
          (tasks st) (lost st) (ticks st) (trace st) (write_faults st).
Definition with_tasks (f : gmap conn pyid → gmap conn pyid) (st : relay) :=
  MkRelay (devices st) (device_info st) (paired_devices st) (disk st)
          (f (tasks st)) (lost st) (ticks st) (trace st) (write_faults st).
Definition with_lost (f : gset conn → gset conn) (st : relay) :=
  MkRelay (devices st) (device_info st) (paired_devices st) (disk st)
          (tasks st) (f (lost st)) (ticks st) (trace st) (write_faults st).
Definition tick (st : relay) :=
  MkRelay (devices st) (device_info st) (paired_devices st) (disk st)
          (tasks st) (lost st) (S (ticks st)) (trace st) (write_faults st).
Definition emit (e : effect) (st : relay) :=
  MkRelay (devices st) (device_info st) (paired_devices st) (disk st)
          (tasks st) (lost st) (ticks st) (trace st ++ [e]) (write_faults st).
Definition with_write_faults
    (f : list (option nat) → list (option nat)) (st : relay) :=
  MkRelay (devices st) (device_info st) (paired_devices st) (disk st)
          (tasks st) (lost st) (ticks st) (trace st) (f (write_faults st)).

(** *** A state-and-exception monad for handler bodies *)

Inductive py_exn := KeyError | TypeError | ConnectionClosed | UnicodeEncodeError.

Inductive outcome (A : Type) :=
  | Ret (a : A)
  | Raise (e : py_exn).
Arguments Ret {A} a.
Arguments Raise {A} e.

Definition M (A : Type) : Type := relay → outcome A * relay.

Definition ret {A} (a : A) : M A := λ st, (Ret a, st).
Definition raise {A} (e : py_exn) : M A := λ st, (Raise e, st).
Definition bind {A B} (m : M A) (k : A → M B) : M B :=
  λ st, match m st with
        | (Ret a, st') => k a st'
        | (Raise e, st') => (Raise e, st')
        end.
Definition gets {A} (f : relay → A) : M A := λ st, (Ret (f st), st).
Definition modify (f : relay → relay) : M unit := λ st, (Ret tt, f st).

(** [try: body except: pass] *)
Definition try_pass (body : M unit) : M unit :=
  λ st, match body st with
        | (Ret _, st') => (Ret tt, st')
        | (Raise _, st') => (Ret tt, st')
        end.

(** [try: body; <flag> = True except: pass], yielding the flag. *)
Definition try_flag (body : M unit) : M bool :=
  λ st, match body st with
        | (Ret _, st') => (Ret true, st')
        | (Raise _, st') => (Ret false, st')
        end.

Declare Scope relay_scope.
Delimit Scope relay_scope with relay.
Notation "x <- m ;; k" := (bind m (λ x, k))
  (at level 100, m at next level, right associativity) : relay_scope.
Notation "m ;; k" := (bind m (λ _, k))
  (at level 100, right associativity) : relay_scope.
Open Scope relay_scope.

(** *** Primitive operations *)

(** [await ws.send(json.dumps(m))]: raises when the transport is gone. *)
Definition send (ws : conn) (m : server_msg) : M unit :=
  λ st, if decide (ws ∈ lost st)
        then (Raise ConnectionClosed, emit (SendRaised ws m) st)
        else (Ret tt, emit (Sent ws m) st).

(** [devices[k]] *)
Definition devices_getitem (k : pyid) : M conn :=
  λ st, match PyDict.get k (devices st) with
        | Some ws => (Ret ws, st)
        | None => (Raise KeyError, st)
        end.

(** [device_info[k]] *)
Definition device_info_getitem (k : pyid) : M device_record :=
  λ st, match device_info st !! k with
        | Some r => (Ret r, st)
        | None => (Raise KeyError, st)
        end.

(** [x[:8]] inside a log line: slicing [None] raises [TypeError]. *)
Definition slice8 (x : pyid) : M unit :=
  match x with
  | Some _ => ret tt
  | None => raise TypeError
  end.

(** The handler's local variable [device_id] of the coroutine serving [ws]. *)
Definition local_device_id (ws : conn) : M pyid :=
  gets (λ st, default None (tasks st !! ws)).

(** The file operations of [save_persistent_data], in program order.  The
    second document lists the pairs of the set; [load_persistent_data]
    makes a set of them again, so that only which pairs are listed matters,
    and they are written here in the order of [elements]. *)
Definition save_ops (st : relay) : list fs_op :=
  [ OpenW DEVICES_FILE;
    Dump DEVICES_FILE (DevicesJson (device_info st));
    OpenW PAIRINGS_FILE;
    Dump PAIRINGS_FILE (PairingsJson (elements (paired_devices st))) ].

Arguments save_ops : simpl never.

(** What the file system does to the next save. *)
Definition next_fault (st : relay) : option nat :=
  head (write_faults st) ≫= id.

(** The file operations that take effect: all of them, or those before the
    one that raises. *)
Definition ops_until (fault : option nat) (ops : list fs_op) : list fs_op :=
  match fault with
  | None => ops
  | Some k => take k ops
  end.

(** [save_persistent_data]: the [try] block runs the file operations up to
    the first that raises; the [except] clause logs the error, and the call
    returns either way. *)
Definition save_persistent_data : M unit :=
  modify (λ st,
    emit (Saved (device_info st) (paired_devices st))
         (with_disk (fs_run (ops_until (next_fault st) (save_ops st)))
            (with_write_faults (drop 1) st))).

(** [device_id in pair] for a 2-tuple. *)
Definition in_pair (x : pyid) (pair : pyid * pyid) : bool :=
  bool_decide (pair.1 = x) || bool_decide (pair.2 = x).

(** The [my_pairings] list built by [register], where [pairs] is the
    sequence [for pair in paired_devices] goes through. *)
Definition my_pairings (pairs : list (pyid * pyid)) (device_id : pyid) (st : relay)
  : list pairing_entry :=
  omap (λ pair : pyid * pyid,
          if in_pair device_id pair then
            let peer_id := if decide (pair.1 = device_id) then pair.2 else pair.1 in
            r ← device_info st !! peer_id;
            Some (PairingEntry peer_id (device_name r) (device_type r))
          else None)
       pairs.

(** An iteration order lists the elements of the set, each once. *)
Definition iterates_set (iter_pairs : relay → list (pyid * pyid)) : Prop :=
  ∀ st, iter_pairs st ≡ₚ elements (paired_devices st).

(** The pairing check of [relay_message]: [pair1 in paired_devices or pair2 in
    paired_devices]. *)
Definition is_paired (a b : pyid) (st : relay) : bool :=
  bool_decide ((a, b) ∈ paired_devices st) || bool_decide ((b, a) ∈ paired_devices st).

Section handlers.
(** [clock k] is what the [k]-th call of [datetime.now().isoformat()]
    returns; [sha256_hexdigest] is [hashlib.sha256(..).hexdigest()] on
    bytes; [iter_pairs st] is the sequence in which the interpreter goes
    through [paired_devices] in the state [st] of the process. *)
Variable clock : nat → string.
Variable sha256_hexdigest : string → string.
Variable iter_pairs : relay → list (pyid * pyid).

Definition now : M string :=
  λ st, (Ret (clock (ticks st)), tick st).

Definition generate_device_fingerprint (device_id : pyid) (device_name : string)
  : M string :=
  let data := py_str device_id +:+ ":" +:+ device_name in
  match str_encode data with
  | Some bytes => ret (String.substring 0 16 (sha256_hexdigest bytes))
  | None => raise UnicodeEncodeError
  end.

(** [msg_type == 'register'] *)
Definition on_register (websocket : conn) (id ty name : pyid) : M unit :=
  modify (with_tasks <[websocket := id]>) ;;
  let device_id := id in
  let device_type := ty in
  let device_name := default "Unknown" name in
  modify (with_devices (PyDict.set device_id websocket)) ;;
  fingerprint <- generate_device_fingerprint device_id device_name ;;
  is_known <- gets (λ st, bool_decide (is_Some (device_info st !! device_id))) ;;
  (if negb is_known then
     t1 <- now ;;
     t2 <- now ;;
     modify (with_device_info
               <[device_id := DeviceRecord device_type device_name fingerprint t1 t2]>) ;;
     save_persistent_data ;;
     slice8 device_id
   else
     t <- now ;;
     modify (with_device_info (alter (touch t) device_id)) ;;
     save_persistent_data ;;
     slice8 device_id) ;;
  send websocket
       (Registered device_id is_known
                   (py_str device_type +:+ " registered successfully")) ;;
  pairings <- gets (λ st, my_pairings (iter_pairs st) device_id st) ;;
  match pairings with
  | [] => ret tt
  | _ =>
      send websocket
           (ExistingPairings pairings
              ("Found " +:+ pretty (length pairings) +:+ " existing pairing(s)"))
  end.

(** The loop of [pair_request] over [devices.items()]: the offer goes to the
    first laptop whose write does not raise. *)
Fixpoint offer_to_laptops (items : list (pyid * conn)) (offer : server_msg)
  : M bool :=
  match items with
  | [] => ret false
  | (laptop_id, laptop_ws) :: rest =>
      laptop_info <- gets (λ st, device_info st !! laptop_id) ;;
      if bool_decide ((laptop_info ≫= device_type) = Some "laptop") then
        laptop_found <- try_flag (send laptop_ws offer) ;;
        if laptop_found then ret true else offer_to_laptops rest offer
      else offer_to_laptops rest offer
  end.

(** [msg_type == 'pair_request'] *)
Definition on_pair_request (websocket : conn) (code name : pyid) : M unit :=
  device_id <- local_device_id websocket ;;
  let pairing_code := code in
  let device_name := default "Mobile" name in
  items <- gets devices ;;
  laptop_found <-
    offer_to_laptops items (PairRequestFwd device_id pairing_code device_name) ;;
  if negb laptop_found then
    send websocket (PairingFailed "No laptops available")
  else ret tt.

(** [msg_type == 'pair_response'] *)
Definition on_pair_response (websocket : conn) (target : pyid) (accepted : bool)
    (msg : pyid) : M unit :=
  device_id <- local_device_id websocket ;;
  let target_id := target in
  let message := default "" msg in
  connected <- gets (λ st, PyDict.contains target_id (devices st)) ;;
  if connected then
    if accepted then
      let pair := (device_id, target_id) in
      modify (with_paired_devices (λ s, {[pair]} ∪ s)) ;;
      save_persistent_data ;;
      target_info <- device_info_getitem target_id ;;
      send websocket (Paired target_id (device_name target_info) true message) ;;
      target_ws <- devices_getitem target_id ;;
      own_info <- device_info_getitem device_id ;;
      send target_ws
           (Paired device_id (device_name own_info) true
                   "Successfully paired with laptop (persistent)") ;;
      slice8 device_id ;;
      slice8 target_id
    else
      target_ws <- devices_getitem target_id ;;
      send target_ws (PairingFailed message)
  else ret tt.

(** [msg_type == 'unpair_device'] *)
Definition on_unpair_device (websocket : conn) (target : pyid) : M unit :=
  device_id <- local_device_id websocket ;;
  let target_id := target in
  modify (with_paired_devices
            (filter (λ pair, ¬ (in_pair device_id pair && in_pair target_id pair)))) ;;
  save_persistent_data ;;
  send websocket (Unpaired target_id "Device unpaired successfully") ;;
  connected <- gets (λ st, PyDict.contains target_id (devices st)) ;;
  (if connected then
     target_ws <- devices_getitem target_id ;;
     send target_ws (Unpaired device_id "Device was unpaired remotely")
   else ret tt) ;;
  slice8 device_id ;;
  slice8 target_id.

(** [msg_type == 'relay_message'] *)
Definition on_relay_message (websocket : conn) (target mtype : pyid)
    (body : option string) : M unit :=
  device_id <- local_device_id websocket ;;
  let target_id := target in
  let message_type := default "generic" mtype in
  let payload := default "{}" body in
  paired <- gets (is_paired device_id target_id) ;;
  if paired then
    connected <- gets (λ st, PyDict.contains target_id (devices st)) ;;
    if connected then
      try_pass (
        target_ws <- devices_getitem target_id ;;
        send target_ws (RelayMessageFwd device_id message_type payload) ;;
        slice8 device_id ;;
        slice8 target_id)
    else
      send websocket (RelayFailed "Target device is offline")
  else
    send websocket (RelayFailed "Devices are not paired").

(** The [if]/[elif] chain of the loop body. *)
Definition dispatch (websocket : conn) (m : client_msg) : M unit :=
  match m with
  | Register id ty name => on_register websocket id ty name
  | PairRequest code name => on_pair_request websocket code name
  | PairResponse target accepted msg =>
      on_pair_response websocket target accepted msg
  | UnpairDevice target => on_unpair_device websocket target
  | RelayMessage target mtype body =>
      on_relay_message websocket target mtype body
  | OtherType => ret tt
  | InvalidJSON => ret tt
  end.

(** The [finally] block of [handle_client]. *)
Definition cleanup (websocket : conn) : M unit :=
  device_id <- local_device_id websocket ;;
  connected <- gets (λ st, PyDict.contains device_id (devices st)) ;;
  if py_truthy device_id && connected then
    modify (with_devices (PyDict.del device_id)) ;;
    known <- gets (λ st, bool_decide (is_Some (device_info st !! device_id))) ;;
    if known then
      t <- now ;;
      modify (with_device_info (alter (touch t) device_id)) ;;
      save_persistent_data
    else ret tt
  else ret tt.

(** The coroutine leaves its loop: [finally] runs and the task is gone. *)
Definition handler_exit (websocket : conn) (st : relay) : relay :=
  with_tasks (delete websocket) (cleanup websocket st).2.

(** One iteration of [async for message in websocket] with its two inner
    [except] clauses.  An exception of the body is logged and the loop
    goes on; [json.JSONDecodeError] is answered with an [error] message,
    and if that write raises, the exception leaves the loop. *)
Definition handle_message (websocket : conn) (m : client_msg) (st : relay)
  : relay :=
  match m with
  | InvalidJSON =>
      match send websocket (Error "Invalid JSON") st with
      | (Ret _, st') => st'
      | (Raise _, st') => handler_exit websocket st'
      end
  | _ => (dispatch websocket m st).2
  end.

(** What can happen to the relay process. *)
Inductive event :=
  | Connect (ws : conn)
  | Message (ws : conn) (m : client_msg)
  | TransportLost (ws : conn)
  | HandlerExit (ws : conn).

Definition step (st : relay) (ev : event) : relay :=
  match ev with
  | Connect ws => with_tasks <[ws := None]> st
  | Message ws m =>
      if decide (is_Some (tasks st !! ws)) then handle_message ws m st else st
  | TransportLost ws => with_lost (λ s, {[ws]} ∪ s) st
  | HandlerExit ws =>
      if decide (is_Some (tasks st !! ws))
      then handler_exit ws (with_lost (λ s, {[ws]} ∪ s) st)
      else st
  end.

Definition run (st : relay) (evs : list event) : relay := foldl step st evs.

End handlers.

(** *** Reading a trace *)

(** Every write the relay attempted, whether or not it raised. *)
Definition writes (tr : list effect) : list (conn * server_msg) :=
  omap (λ e, match e with
             | Sent ws m | SendRaised ws m => Some (ws, m)
             | Saved _ _ => None
             end) tr.

(** The writes that reached their websocket. *)
Definition delivered (tr : list effect) : list (conn * server_msg) :=
  omap (λ e, match e with
             | Sent ws m => Some (ws, m)
             | _ => None
             end) tr.

(** The effect of one [send], decided by the state of the transport. *)
Definition send_effect (st : relay) (ws : conn) (m : server_msg) : effect :=
  if decide (ws ∈ lost st) then SendRaised ws m else Sent ws m.

(** Every device with a live session has a directory entry. *)
Definition registry_in_directory (st : relay) : Prop :=
  Forall (λ k, is_Some (device_info st !! k)) (PyDict.keys (devices st)).

Global Instance registry_in_directory_dec st : Decision (registry_in_directory st).
Proof. unfold registry_in_directory. apply _. Defined.

(** A registry key whose directory entry has [device_type] ['laptop']. *)
Definition is_laptop (st : relay) (laptop_id : pyid) : bool :=
  bool_decide ((device_info st !! laptop_id ≫= device_type) = Some "laptop").

(** Both files hold the stores that are in memory. *)
Definition flushed (st : relay) : Prop :=
  disk st !! DEVICES_FILE = Some (DevicesJson (device_info st)) ∧
  disk st !! PAIRINGS_FILE = Some (PairingsJson (elements (paired_devices st))).

(** What a step may do to the stores: leave them as they are, *)
Definition unchanged (st st' : relay) : Prop :=
  device_info st' = device_info st ∧ paired_devices st' = paired_devices st.

(** or change them and call [save_persistent_data] on the result before any
    write of the step is delivered; the files are then what the file
    operations of that save that took effect made of them. *)
Definition saved_first (st st' : relay) : Prop :=
  disk st' = fs_run (ops_until (next_fault st) (save_ops st')) (disk st) ∧
  ∃ pre post,
    trace st' =
      (trace st ++ pre ++ Saved (device_info st') (paired_devices st') :: post)%list ∧
    delivered pre = [].

(** The disk after a crash that lets only the first [k] file operations of
    [save_persistent_data] through. *)
Definition crash_during_save (k : nat) (st : relay) : gmap string file_content :=
  fs_run (take k (save_ops st)) (disk st).

(** Whether [generate_device_fingerprint] raises on the fields of a
    [register] message: [device_id] or [device_name] holds a surrogate. *)
Definition fingerprint_raises (id name : pyid) : bool :=
  has_surrogate (py_str id) || has_surrogate (default "Unknown" name).

(** An event other than a registration on which the fingerprint raises. *)
Definition registers_cleanly (ev : event) : Prop :=
  match ev with
  | Message _ (Register id _ name) => fingerprint_raises id name = false
  | _ => True
  end.

(** *** Relating the states before and after a handler body *)

(** Whatever state [m] is run from, and whether it returns or raises, the
    state it ends in is related to the one it started from. *)
Definition respects {A} (R : relay → relay → Prop) (m : M A) : Prop :=
  ∀ st, R st (m st).2.

(** The component [f] of the state is as it was. *)
Definition same {A} (f : relay → A) : relay → relay → Prop :=
  λ st st', f st' = f st.

(** The trace has only grown, and by effects that satisfy [P]. *)
Definition grows (P : effect → Prop) : relay → relay → Prop :=
  λ st st', ∃ new, trace st' = (trace st ++ new)%list ∧ Forall P new.

(** *** Start-up: [load_persistent_data] and [main] *)

(** What [json.load] returns for the object [json.dump] wrote from a
    dictionary: a [None] key is written as ["null"] and comes back as that
    string.  When the dictionary also has the key ["null"] the document has
    the key twice and the winner depends on insertion order, which a [gmap]
    does not record: no value is given then. *)
Definition json_reload (d : gmap pyid device_record)
  : option (gmap pyid device_record) :=
  match d !! None with
  | None => Some d
  | Some r =>
      match d !! Some "null" with
      | None => Some (<[Some "null" := r]> (delete None d))
      | Some _ => None
      end
  end.

(** [load_persistent_data].  A missing file leaves the store as it is; a
    file [json.load] cannot parse resets the store to empty.  A file holding
    a document of the other kind parses without error into a value that is
    neither a dictionary of records nor a list of pairs: no value is given. *)
Definition load_persistent_data (st : relay) : option relay :=
  loaded_info ←
    match disk st !! DEVICES_FILE with
    | None => Some (device_info st)
    | Some Truncated => Some ∅
    | Some (DevicesJson d) => json_reload d
    | Some (PairingsJson _) => None
    end;
  loaded_pairs ←
    match disk st !! PAIRINGS_FILE with
    | None => Some (paired_devices st)
    | Some Truncated => Some ∅
    | Some (PairingsJson pairing_list) => Some (list_to_set pairing_list)
    | Some (DevicesJson _) => None
    end;
  Some (with_paired_devices (λ _, loaded_pairs)
          (with_device_info (λ _, loaded_info) st)).

(** A new relay process on the disk the old one left: the module-level
    stores start empty, no connection exists, and [main] loads the files.
    The record of effects and the count of clock readings go on, so that
    what the new process does can be told from what the old one did; so
    does what the file system has in store. *)
Definition restart (st : relay) : option relay :=
  load_persistent_data
    (MkRelay [] ∅ ∅ (disk st) ∅ ∅ (ticks st) (trace st) (write_faults st)).

Definition PORT : Z := 8765.
Definition MAX_PORT_RETRIES : nat := 5.

(** What [websockets.serve] does on a port: it binds (and [main] then serves
    forever), or raises [OSError] with [errno] 98 or another one. *)
Inductive bind_outcome := Bound | AddressInUse | OtherOSError.

(** How [main] ends up: serving on a port, re-raising the [OSError] of the
    bind on a port, or leaving the [for] loop. *)
Inductive main_outcome := Serving (port : Z) | Reraised (port : Z) | LoopEnded.

(** The [for i in range(MAX_PORT_RETRIES)] loop of [main]. *)
Fixpoint port_loop (serve : Z → bind_outcome) (range : list nat)
    (current_port : Z) : main_outcome :=
  match range with
  | [] => LoopEnded
  | i :: rest =>
      match serve current_port with
      | Bound => Serving current_port
      | AddressInUse =>
          if decide (i = MAX_PORT_RETRIES - 1) then Reraised current_port
          else port_loop serve rest (current_port + 1)
      | OtherOSError => Reraised current_port
      end
  end.

Definition main_bind (serve : Z → bind_outcome) : main_outcome :=
  port_loop serve (seq 0 MAX_PORT_RETRIES) PORT.

End Relay.

(** ** The host: [persistent_laptop_client.py], pairing part *)

Module Laptop.

(** The attributes of [PersistentLaptopClient] the pairing protocol uses. *)
Record client := MkClient {
  device_name : string;
  paired_devices : list Relay.pairing_entry;
  pairing_code : pyid
}.

(** [generate_pairing_code]: the f-string of
    [random.randint(100000, 999999)], where [draw] is the generator's
    output. *)
Definition generate_pairing_code (draw : Z) (self : client) : client * string :=
  let code := pretty (randint 100000 999999 draw) in
  (MkClient (device_name self) (paired_devices self) (Some code), code).

(** [handle_pair_request]: the new state and the [pair_response] passed to
    [self.websocket.send]. *)
Definition handle_pair_request (self : client)
    (code from_device_id name : pyid) : client * Relay.client_msg :=
  let pairing_code_in := code in
  let mobile_device_id := from_device_id in
  if py_truthy (pairing_code self) && bool_decide (pairing_code_in = pairing_code self)
  then
    (self, Relay.PairResponse mobile_device_id true
             (Some ("Paired with " +:+ device_name self +:+ " (persistent)")))
  else
    (self, Relay.PairResponse mobile_device_id false (Some "Invalid pairing code")).

(** [handle_message] on what the relay writes to the host.  The branch
    [relay_message] ([handle_relayed_message]: remote commands and file
    listings) assigns no attribute; its replies are outside the pairing
    protocol and are not listed. *)
Definition handle_message (self : client) (data : Relay.server_msg)
  : client * list Relay.client_msg :=
  match data with
  | Relay.Registered _ _ _ => (self, [])
  | Relay.ExistingPairings pairings _ =>
      (MkClient (device_name self) pairings (pairing_code self), [])
  | Relay.PairRequestFwd from code name =>
      let result := handle_pair_request self code from (Some name) in
      (result.1, [result.2])
  | Relay.Paired peer_id peer_name _ _ =>
      let new_pairing := Relay.PairingEntry peer_id peer_name (Some "mobile") in
      if existsb (λ p, bool_decide (Relay.peer_device_id p = peer_id))
                 (paired_devices self)
      then (self, [])
      else (MkClient (device_name self) (paired_devices self ++ [new_pairing])
                     (pairing_code self), [])
  | Relay.Unpaired target_id _ =>
      (MkClient (device_name self)
                (filter (λ p, Relay.peer_device_id p ≠ target_id) (paired_devices self))
                (pairing_code self), [])
  | Relay.RelayMessageFwd _ _ _ => (self, [])
  | Relay.Error _ => (self, [])
  | _ => (self, [])
  end.

(** Whether a [pair_response] accepts. *)
Definition accepts (reply : Relay.client_msg) : bool :=
  match reply with
  | Relay.PairResponse _ accepted _ => accepted
  | _ => false
  end.

(** *** The connection loop of [start] *)

(** After a successful [connect] and the two-second sleep: a code is
    generated, from the generator's output [r], only when [paired_devices]
    is empty.  No message of the relay has been handled at this point, since
    only [listen_for_messages] calls [handle_message]. *)
Definition after_connect (r : Z) (self : client) : client :=
  match paired_devices self with
  | [] => (generate_pairing_code r self).1
  | _ => self
  end.

(** [listen_for_messages] on the messages the loop got to, in order.  A
    message whose handling raises ends the loop; the attributes it assigned
    before raising stay, as in [handle_message]. *)
Definition listen_for_messages (self : client) (seen : list Relay.server_msg)
  : client :=
  foldl (λ c data, (handle_message c data).1) self seen.

(** One round of the [while self.running] loop of [start]. *)
Definition start_round (connected : bool) (r : Z) (seen : list Relay.server_msg)
    (self : client) : client :=
  if connected then listen_for_messages (after_connect r self) seen else self.

(** *** The persistent identity: [load_device_identity] *)

(** The file [laptop_device.json]: missing, unusable (not parsable, or not
    a JSON object), or a JSON object (with string values). *)
Inductive identity_file :=
  | NoFile
  | NotJson
  | IdentityJson (fields : gmap string string).

(** The document [save_device_identity] writes. *)
Definition identity_document (device_id device_name created_at hostname : string)
  : identity_file :=
  IdentityJson
    (<["device_id" := device_id]>
       (<["device_name" := device_name]>
          (<["created_at" := created_at]> {["hostname" := hostname]}))).

Section identity.
(** [hostname] is [socket.gethostname()], [today] is
    [datetime.now().date()] as the f-string prints it, [now_iso] is
    [datetime.now().isoformat()]. *)
Variable sha256_hexdigest : string → string.
Variables hostname today now_iso : string.

(** The name [__init__] gives the client. *)
Definition init_device_name : string := "Laptop (" +:+ hostname +:+ ")".

(** [load_device_identity]: the device identifier and the file afterwards. *)
Definition load_device_identity (file : identity_file) : string * identity_file :=
  let create :=
    let mac_data := hostname +:+ ":" +:+ today in
    let device_hash := String.substring 0 12 (sha256_hexdigest mac_data) in
    let device_id := "laptop_" +:+ hostname +:+ "_" +:+ device_hash in
    (device_id, identity_document device_id init_device_name now_iso hostname) in
  match file with
  | IdentityJson fields =>
      match fields !! "device_id" with
      | Some device_id => (device_id, file)
      | None => create
      end
  | _ => create
  end.
End identity.

End Laptop.

(** ** Concrete runs used as test inputs *)

Module Scenario.
Import Relay.

Definition demo_clock (k : nat) : string := "2024-01-01T00:00:0" +:+ pretty k.
Definition demo_sha (data : string) : string := "sha256:" +:+ data.
Definition demo_iter (st : relay) : list (pyid * pyid) :=
  elements (paired_devices st).

Definition exec : relay → list event → relay := run demo_clock demo_sha demo_iter.
Definition handle : conn → client_msg → relay → relay :=
  handle_message demo_clock demo_sha demo_iter.

(** A host on connection 1 and a companion on connection 2, both registered,
    not paired. *)
Definition two_registered : relay :=
  exec initial
    [ Connect 1; Message 1 (Register (Some "host_1") (Some "laptop") (Some "Laptop"));
      Connect 2; Message 2 (Register (Some "mob_1") (Some "mobile") (Some "Phone")) ].

(** The same two devices after the host accepted the companion. *)
Definition host_paired : relay :=
  exec two_registered [ Message 1 (PairResponse (Some "mob_1") true (Some "ok")) ].

(** A companion on connection 1, and on connection 2 a client that never
    registered but answered a pairing offer. *)
Definition unregistered_accepts : relay :=
  exec initial
    [ Connect 1; Message 1 (Register (Some "mob_1") (Some "mobile") (Some "Phone"));
      Connect 2; Message 2 (PairResponse (Some "mob_1") true None) ].

(** The companion left after both had registered. *)
Definition companion_gone : relay := exec two_registered [ HandlerExit 2 ].

(** The same device identifier registered from connection 1, then from
    connection 2 while connection 1 is still open. *)
Definition first_session : relay :=
  exec initial
    [ Connect 1; Message 1 (Register (Some "host_1") (Some "laptop") (Some "Laptop"));
      Connect 2 ].
Definition same_id_twice : relay :=
  exec first_session
    [ Message 2 (Register (Some "host_1") (Some "laptop") (Some "Laptop")) ].

End Scenario.

(** * Properties *)

(** ** Facts about ordered dictionaries *)

Section pydict_facts.
Context {K V : Type} `{EqDecision K}.
Implicit Types (k : K) (v : V) (d : list (K * V)).
Import PyDict.

Lemma get_set_eq k v d : get k (set k v d) = Some v.
Proof.
  induction d as [|[k' v'] d IH]; simpl.
  - by rewrite decide_True.
  - destruct (decide (k' = k)) as [->|Hne]; simpl.
    + by rewrite decide_True.
    + by rewrite decide_False.
Qed.

Lemma get_set_ne k k' v d : k ≠ k' → get k' (set k v d) = get k' d.
Proof.
  intros Hne. induction d as [|[k0 v0] d IH]; simpl.
  - by rewrite decide_False.
  - destruct (decide (k0 = k)) as [->|Hne0]; simpl.
    + by rewrite !decide_False.
    + destruct (decide (k0 = k')); auto.
Qed.

Lemma keys_set_present k v d :
  is_Some (get k d) → keys (set k v d) = keys d.
Proof.
  unfold keys. induction d as [|[k0 v0] d IH]; simpl.
  - intros [? ?]; discriminate.
  - destruct (decide (k0 = k)) as [->|Hne]; simpl; [done|].
    intros H. f_equal. by apply IH.
Qed.

Lemma get_del_ne k k' d : k ≠ k' → get k' (del k d) = get k' d.
Proof.
  intros Hne. induction d as [|[k0 v0] d IH]; simpl; [done|].
  destruct (decide (k0 = k)) as [->|Hne0]; simpl.
  - by rewrite decide_False.
  - destruct (decide (k0 = k')); auto.
Qed.

Lemma get_del_is_Some k k' d : is_Some (get k' (del k d)) → is_Some (get k' d).
Proof.
  induction d as [|[k0 v0] d IH]; simpl; [done|].
  destruct (decide (k0 = k)) as [->|Hne0]; simpl.
  - destruct (decide (k = k')); eauto.
  - destruct (decide (k0 = k')); eauto.
Qed.

Lemma get_Some_keys k v d : get k d = Some v → k ∈ keys d.
Proof.
  unfold keys. induction d as [|[k0 v0] d IH]; simpl; [done|].
  destruct (decide (k0 = k)) as [->|Hne]; intros Hg.
  - apply list_elem_of_here.
  - apply list_elem_of_further. by apply IH.
Qed.

Lemma contains_true k d : contains k d = true ↔ is_Some (get k d).
Proof. unfold contains. by rewrite bool_decide_eq_true. Qed.

Lemma contains_false k d : contains k d = false ↔ get k d = None.
Proof.
  unfold contains. rewrite bool_decide_eq_false.
  by rewrite <- eq_None_not_Some.
Qed.

Lemma keys_set k v d : ∀ k', k' ∈ keys (set k v d) → k' = k ∨ k' ∈ keys d.
Proof.
  unfold keys. induction d as [|[k0 v0] d IH]; simpl; intros k'.
  - rewrite list_elem_of_singleton. auto.
  - destruct (decide (k0 = k)) as [->|Hne]; simpl.
    + rewrite !elem_of_cons. tauto.
    + rewrite !elem_of_cons. intros [->|Hin]; [tauto|].
      destruct (IH _ Hin); tauto.
Qed.

Lemma keys_del k d : ∀ k', k' ∈ keys (del k d) → k' ∈ keys d.
Proof.
  unfold keys. induction d as [|[k0 v0] d IH]; simpl; intros k'; [done|].
  destruct (decide (k0 = k)) as [->|Hne]; simpl.
  - apply list_elem_of_further.
  - rewrite !elem_of_cons. intros [->|Hin]; [tauto|]. right. by apply IH.
Qed.
End pydict_facts.

(** ** The host's pairing code *)

Section laptop_facts.
Import Laptop.

Lemma handle_pair_request_state self code from name :
  (handle_pair_request self code from name).1 = self.
Proof. unfold handle_pair_request. by case_match. Qed.

Lemma handle_pair_request_accepts self code from name :
  accepts (handle_pair_request self code from name).2
  = py_truthy (pairing_code self) && bool_decide (code = pairing_code self).
Proof. unfold handle_pair_request. by case_match. Qed.

Lemma handle_message_keeps_code self data :
  pairing_code (handle_message self data).1 = pairing_code self.
Proof.
  destruct data; simpl; try done.
  - by rewrite handle_pair_request_state.
  - by case_match.
Qed.

(** The decimal digits of a number between 100000 and 999999. *)
Lemma pretty_six_digits (r : Z) :
  (100000 ≤ r ≤ 999999)%Z →
  ∃ d5 d4 d3 d2 d1 d0 : N,
    (1 ≤ d5 < 10)%N ∧ (d4 < 10)%N ∧ (d3 < 10)%N ∧ (d2 < 10)%N ∧
    (d1 < 10)%N ∧ (d0 < 10)%N ∧
    pretty r =
      String (pretty_N_char d5) (String (pretty_N_char d4)
      (String (pretty_N_char d3) (String (pretty_N_char d2)
      (String (pretty_N_char d1) (String (pretty_N_char d0) ""))))).
Proof.
  intros Hr. destruct r as [|p|p]; [lia| |lia].
  set (x := N.pos p). assert (Hx : (100000 ≤ x ≤ 999999)%N) by (unfold x; lia).
  change (pretty (Z.pos p)) with (pretty x).
  unfold pretty, pretty_N. rewrite decide_False by lia.
  exists ((x `div` 100000) `mod` 10)%N, ((x `div` 10000) `mod` 10)%N,
         ((x `div` 1000) `mod` 10)%N, ((x `div` 100) `mod` 10)%N,
         ((x `div` 10) `mod` 10)%N, (x `mod` 10)%N.
  assert (H1 : ((x `div` 10) `div` 10 = x `div` 100)%N)
    by (rewrite N.Div0.div_div; done).
  assert (H2 : ((x `div` 100) `div` 10 = x `div` 1000)%N)
    by (rewrite N.Div0.div_div; done).
  assert (H3 : ((x `div` 1000) `div` 10 = x `div` 10000)%N)
    by (rewrite N.Div0.div_div; done).
  assert (H4 : ((x `div` 10000) `div` 10 = x `div` 100000)%N)
    by (rewrite N.Div0.div_div; done).
  assert (H5 : ((x `div` 100000) `div` 10 = 0)%N).
  { rewrite N.Div0.div_div. apply N.div_small. simpl. lia. }
  assert (B1 : (0 < x `div` 10)%N) by (apply N.div_str_pos; lia).
  assert (B2 : (0 < x `div` 100)%N) by (apply N.div_str_pos; lia).
  assert (B3 : (0 < x `div` 1000)%N) by (apply N.div_str_pos; lia).
  assert (B4 : (0 < x `div` 10000)%N) by (apply N.div_str_pos; lia).
  assert (B5 : (0 < x `div` 100000)%N) by (apply N.div_str_pos; lia).
  assert (B6 : (x `div` 100000 < 10)%N)
    by (apply N.Div0.div_lt_upper_bound; lia).
  rewrite (pretty_N_go_step x) by lia.
  rewrite (pretty_N_go_step (x `div` 10)) by done. rewrite H1.
  rewrite (pretty_N_go_step (x `div` 100)) by done. rewrite H2.
  rewrite (pretty_N_go_step (x `div` 1000)) by done. rewrite H3.
  rewrite (pretty_N_go_step (x `div` 10000)) by done. rewrite H4.
  rewrite (pretty_N_go_step (x `div` 100000)) by done. rewrite H5.
  rewrite pretty_N_go_0.
  repeat split; try (apply N.mod_lt; lia).
  rewrite N.mod_small by done. lia.
Qed.

(** [random.randint(a, b)] stays between its two arguments. *)
Lemma randint_range (a b draw : Z) :
  (a ≤ b)%Z → (a ≤ randint a b draw ≤ b)%Z.
Proof.
  intros Hab. unfold randint, randbelow.
  pose proof (Z.mod_pos_bound draw (b - a + 1) ltac:(lia)). lia.
Qed.

Lemma pretty_N_char_digit (d : N) : is_digit (pretty_N_char d) = true.
Proof. unfold pretty_N_char. by repeat case_match. Qed.

Lemma pretty_N_char_nonzero (d : N) :
  (1 ≤ d)%N → pretty_N_char d ≠ "0"%char.
Proof.
  intros Hd Heq. assert (d = 0%N); [|lia].
  destruct (decide (d < 10)%N).
  - by apply pretty_N_char_inj.
  - unfold pretty_N_char in Heq. by repeat case_match.
Qed.
End laptop_facts.

Section laptop_claims.
Import Laptop.

(** C10.  Every code [generate_pairing_code] produces is the decimal
    string of the integer [random.randint(100000, 999999)] returns, which
    lies in [100000, 999999] whatever the generator draws: the code has
    exactly six characters, all of them digits, the first one is not ['0'],
    and an offer whose code starts with ['0'] is rejected by a host holding
    a generated code. *)
Theorem generated_code_six_digits_no_leading_zero (self : client) (draw : Z) :
  let self' := (generate_pairing_code draw self).1 in
  let code := (generate_pairing_code draw self).2 in
  pairing_code self' = Some code ∧
  (∃ r : Z, (100000 ≤ r ≤ 999999)%Z ∧ code = pretty r) ∧
  String.length code = 6 ∧
  forallb is_digit (String.list_ascii_of_string code) = true ∧
  (∀ tail, code ≠ String "0" tail) ∧
  (∀ tail from name,
     accepts (handle_pair_request self' (Some (String "0" tail)) from name).2
     = false).
Proof.
  simpl.
  pose proof (randint_range 100000 999999 draw ltac:(lia)) as Hr.
  set (r := randint 100000 999999 draw) in *.
  destruct (pretty_six_digits r Hr)
    as (d5 & d4 & d3 & d2 & d1 & d0 & H5 & _ & _ & _ & _ & _ & Hp).
  assert (Hz : ∀ tail, pretty r ≠ String "0" tail).
  { intros tail. rewrite Hp. intros [= Hc _].
    by apply (pretty_N_char_nonzero d5); [lia|]. }
  split_and!; try done.
  - by exists r.
  - by rewrite Hp.
  - rewrite Hp. simpl. by rewrite !pretty_N_char_digit.
  - intros tail from name. rewrite handle_pair_request_accepts. simpl.
    rewrite bool_decide_eq_false_2; [by rewrite andb_false_r|].
    intros [= Heq]. by apply (Hz tail).
Qed.

Lemma generated_code_six_digits_no_leading_zero_witness :
  let host := MkClient "Laptop (host)" [] None in
  (generate_pairing_code 382913 host).2 = "482913" ∧
  (generate_pairing_code 42 host).2 = "100042" ∧
  String.length (generate_pairing_code 42 host).2 = 6 ∧
  accepts (handle_pair_request (generate_pairing_code 42 host).1
             (Some "000042") (Some "mob_1") (Some "Phone")).2 = false.
Proof.
  pose proof (generated_code_six_digits_no_leading_zero
                (MkClient "Laptop (host)" [] None) 42) as H.
  cbv zeta in H. destruct H as (_ & _ & Hlen & _ & _ & Hrej).
  intros host. split; [reflexivity|]. split; [reflexivity|].
  split; [exact Hlen|].
  exact (Hrej "00042" (Some "mob_1") (Some "Phone")).
Defined.

(** C4 as stated fails: a host that accepted an offer, and was told by the
    relay that the pairing is made, accepts a second offer with the same
    code. *)
Lemma pairing_code_accepted_twice :
  let host := (generate_pairing_code 382913 (MkClient "Laptop (host)" [] None)).1 in
  let first := handle_pair_request host (Some "482913") (Some "mob_1") (Some "Phone") in
  let host' := (handle_message first.1 (Relay.Paired (Some "mob_1") "Phone" true "ok")).1 in
  let second := handle_pair_request host' (Some "482913") (Some "mob_2") (Some "Tablet") in
  accepts first.2 = true ∧ accepts second.2 = true ∧
  pairing_code second.1 = Some "482913".
Proof. vm_compute. done. Qed.

(** C4, amended.  [handle_pair_request] accepts an offer whose code equals
    the host's current (non-empty) code and leaves the host's state as it
    was; no message of the relay changes the code either, so every later
    offer with that code is accepted again. *)
Theorem pairing_code_not_consumed (self : client) (code from name : pyid) :
  py_truthy (pairing_code self) = true →
  code = pairing_code self →
  let result := handle_pair_request self code from name in
  accepts result.2 = true ∧
  result.1 = self ∧
  (∀ data, pairing_code (handle_message result.1 data).1 = pairing_code self) ∧
  (∀ from' name',
     accepts (handle_pair_request result.1 code from' name').2 = true).
Proof.
  intros Ht ->. simpl. rewrite handle_pair_request_state.
  repeat split.
  - rewrite handle_pair_request_accepts, Ht. by rewrite bool_decide_eq_true_2.
  - intros data. apply handle_message_keeps_code.
  - intros from' name'.
    rewrite handle_pair_request_accepts, Ht. by rewrite bool_decide_eq_true_2.
Qed.

Lemma pairing_code_not_consumed_witness :
  let host := MkClient "Laptop (host)" [] (Some "482913") in
  accepts (handle_pair_request
             (handle_pair_request host (Some "482913") (Some "mob_1") None).1
             (Some "482913") (Some "mob_2") None).2 = true.
Proof.
  pose proof (pairing_code_not_consumed
                (MkClient "Laptop (host)" [] (Some "482913"))
                (Some "482913") (Some "mob_1") None
                ltac:(reflexivity) ltac:(reflexivity)) as H.
  cbv zeta in H. destruct H as (_ & _ & _ & Hagain).
  intros host. exact (Hagain (Some "mob_2") None).
Defined.
End laptop_claims.

(** ** Reasoning about handler bodies *)

Section handler_logic.
Import Relay.
Context (R : relay → relay → Prop) `{!PreOrder R}.

Lemma respects_ret {A} (a : A) : respects R (ret a).
Proof. intros st. simpl. reflexivity. Qed.

Lemma respects_raise {A} e : respects R (@raise A e).
Proof. intros st. simpl. reflexivity. Qed.

Lemma respects_gets {A} (f : relay → A) : respects R (gets f).
Proof. intros st. simpl. reflexivity. Qed.

Lemma respects_modify g : (∀ st, R st (g st)) → respects R (modify g).
Proof. intros Hg st. apply Hg. Qed.

Lemma respects_bind {A B} (m : M A) (k : A → M B) :
  respects R m → (∀ a, respects R (k a)) → respects R (bind m k).
Proof.
  intros Hm Hk st. unfold bind. specialize (Hm st).
  destruct (m st) as [[a|e] st1]; simpl in *; [|done].
  etrans; [exact Hm|apply Hk].
Qed.

Lemma respects_try_pass body : respects R body → respects R (try_pass body).
Proof.
  intros Hb st. unfold try_pass. specialize (Hb st).
  by destruct (body st) as [[a|e] st1].
Qed.

Lemma respects_try_flag body : respects R body → respects R (try_flag body).
Proof.
  intros Hb st. unfold try_flag. specialize (Hb st).
  by destruct (body st) as [[a|e] st1].
Qed.

Lemma respects_send ws m : (∀ e st, R st (emit e st)) → respects R (send ws m).
Proof. intros He st. unfold send. case_decide; apply He. Qed.

Lemma respects_devices_getitem k : respects R (devices_getitem k).
Proof. intros st. unfold devices_getitem. case_match; simpl; reflexivity. Qed.

Lemma respects_device_info_getitem k : respects R (device_info_getitem k).
Proof. intros st. unfold device_info_getitem. case_match; simpl; reflexivity. Qed.

Lemma respects_slice8 x : respects R (slice8 x).
Proof. destruct x; [apply respects_ret|apply respects_raise]. Qed.

Lemma respects_local_device_id ws : respects R (local_device_id ws).
Proof. apply respects_gets. Qed.

Lemma respects_now clock : (∀ st, R st (tick st)) → respects R (now clock).
Proof. intros Ht st. apply Ht. Qed.

Lemma respects_fingerprint sha id name :
  respects R (generate_device_fingerprint sha id name).
Proof.
  unfold generate_device_fingerprint.
  destruct (str_encode _); [apply respects_ret|apply respects_raise].
Qed.

Lemma respects_offer_to_laptops items offer :
  (∀ e st, R st (emit e st)) → respects R (offer_to_laptops items offer).
Proof.
  intros He. induction items as [|[k c] items IH]; simpl.
  - apply respects_ret.
  - apply respects_bind; [apply respects_gets|]. intros info.
    destruct (bool_decide _); [|exact IH].
    apply respects_bind; [by apply respects_try_flag, respects_send|].
    intros []; [apply respects_ret|exact IH].
Qed.
End handler_logic.

Section handler_runs.
Import Relay.

(** Running the first statement of a body. *)
Lemma bind_ret {A B} (a : A) (k : A → M B) st : bind (ret a) k st = k a st.
Proof. done. Qed.

Lemma bind_raise {A B} e (k : A → M B) st : bind (raise e) k st = (Raise e, st).
Proof. done. Qed.

Lemma bind_gets {A B} (f : relay → A) (k : A → M B) st :
  bind (gets f) k st = k (f st) st.
Proof. done. Qed.

Lemma bind_modify {B} g (k : unit → M B) st : bind (modify g) k st = k tt (g st).
Proof. done. Qed.

Lemma bind_now {B} clock (k : string → M B) st :
  bind (now clock) k st = k (clock (ticks st)) (tick st).
Proof. done. Qed.

Lemma bind_bind {A B C} (m : M A) (k1 : A → M B) (k2 : B → M C) st :
  bind (bind m k1) k2 st = bind m (λ a, bind (k1 a) k2) st.
Proof. unfold bind. by destruct (m st) as [[a|e] st1]. Qed.

Global Instance same_preorder {A} (f : relay → A) : PreOrder (same f).
Proof.
  split; [by intros st|]. intros a b c Hab Hbc. unfold same in *. congruence.
Qed.

Global Instance grows_preorder P : PreOrder (grows P).
Proof.
  split.
  - intros st. exists []. by rewrite app_nil_r.
  - intros a b c (n1 & H1 & F1) (n2 & H2 & F2). exists (n1 ++ n2)%list.
    rewrite H2, H1, <- app_assoc. split; [done|]. by apply Forall_app.
Qed.
End handler_runs.

(** One step of showing that a handler body respects a relation, by the
    shape of the body. *)
Ltac respects_rule lem :=
  apply lem; try (lazymatch goal with |- PreOrder _ => apply _ end).

Ltac respects_step :=
  lazymatch goal with
  | |- Relay.respects _ (Relay.bind _ _) => respects_rule @respects_bind; [|intros ?]
  | |- Relay.respects _ (Relay.ret _) => respects_rule @respects_ret
  | |- Relay.respects _ (Relay.raise _) => respects_rule @respects_raise
  | |- Relay.respects _ (Relay.gets _) => respects_rule @respects_gets
  | |- Relay.respects _ (Relay.modify _) => respects_rule @respects_modify; intros ?
  | |- Relay.respects _ (Relay.send _ _) => respects_rule @respects_send; intros ? ?
  | |- Relay.respects _ (Relay.now _) => respects_rule @respects_now; intros ?
  | |- Relay.respects _ Relay.save_persistent_data =>
      unfold Relay.save_persistent_data; respects_rule @respects_modify; intros ?
  | |- Relay.respects _ (Relay.slice8 _) => respects_rule @respects_slice8
  | |- Relay.respects _ (Relay.local_device_id _) => respects_rule @respects_gets
  | |- Relay.respects _ (Relay.devices_getitem _) =>
      respects_rule @respects_devices_getitem
  | |- Relay.respects _ (Relay.device_info_getitem _) =>
      respects_rule @respects_device_info_getitem
  | |- Relay.respects _ (Relay.try_pass _) => respects_rule @respects_try_pass
  | |- Relay.respects _ (Relay.try_flag _) => respects_rule @respects_try_flag
  | |- Relay.respects _ (Relay.generate_device_fingerprint _ _ _) =>
      respects_rule @respects_fingerprint
  | |- Relay.respects _ (Relay.offer_to_laptops _ _) =>
      respects_rule @respects_offer_to_laptops; intros ? ?
  | |- Relay.respects _ (if ?c then _ else _) => destruct c
  | |- Relay.respects _ (match ?x with _ => _ end) => destruct x
  end.

Ltac respects_all := repeat respects_step.

(** Rewrite a component of the state after a body to the component before
    it, when the body leaves that component alone. *)
Ltac keep :=
  match goal with
  | |- context [?f ((?m ?s).2)] =>
      let H := fresh in
      assert (H : Relay.respects (Relay.same f) m) by (respects_all; done);
      let H' := fresh in
      pose proof (H s) as H'; unfold Relay.same in H'; rewrite H'; clear H H'
  end.

(** Run the statements at the head of a body applied to a state, up to the
    first one that is not a plain state access. *)
Ltac run_head :=
  repeat (first [ rewrite bind_bind | rewrite bind_modify | rewrite bind_gets
                | rewrite bind_now | rewrite bind_ret | rewrite bind_raise ];
          cbv beta).

(** ** The relay: single handler steps *)

Section relay_facts.
Import Relay.
Variable clock : nat → string.
Variable sha256_hexdigest : string → string.
Variable iter_pairs : Relay.relay → list (pyid * pyid).

Local Abbreviation handle_message := (handle_message clock sha256_hexdigest iter_pairs).

Lemma send_state ws m st : (send ws m st).2 = emit (send_effect st ws m) st.
Proof. unfold send, send_effect. by case_decide. Qed.

Lemma registry_lookup st k ws :
  registry_in_directory st →
  PyDict.get k (devices st) = Some ws → is_Some (device_info st !! k).
Proof.
  unfold registry_in_directory. rewrite Forall_forall.
  intros Hinv Hget. apply Hinv. by eapply get_Some_keys.
Qed.

Lemma unknown_not_connected st k :
  registry_in_directory st →
  device_info st !! k = None → PyDict.contains k (devices st) = false.
Proof.
  intros Hinv Hnone. apply contains_false.
  destruct (PyDict.get k (devices st)) as [ws|] eqn:Hget; [|done].
  destruct (registry_lookup st k ws Hinv Hget) as [r Hr]. congruence.
Qed.

(** The three outcomes of [relay_message]. *)
Lemma relay_message_not_paired st ws target mtype body :
  is_paired (default None (tasks st !! ws)) target st = false →
  handle_message ws (RelayMessage target mtype body) st
  = emit (send_effect st ws (RelayFailed "Devices are not paired")) st.
Proof.
  intros Hp. unfold Relay.handle_message, dispatch, on_relay_message.
  unfold bind, gets, local_device_id. simpl. rewrite Hp.
  apply send_state.
Qed.

Lemma relay_message_offline st ws target mtype body :
  is_paired (default None (tasks st !! ws)) target st = true →
  PyDict.contains target (devices st) = false →
  handle_message ws (RelayMessage target mtype body) st
  = emit (send_effect st ws (RelayFailed "Target device is offline")) st.
Proof.
  intros Hp Hc. unfold Relay.handle_message, dispatch, on_relay_message.
  unfold bind, gets, local_device_id. simpl. rewrite Hp, Hc.
  apply send_state.
Qed.

Lemma relay_message_forwarded st ws target mtype body target_ws :
  is_paired (default None (tasks st !! ws)) target st = true →
  PyDict.get target (devices st) = Some target_ws →
  handle_message ws (RelayMessage target mtype body) st
  = emit (send_effect st target_ws
            (RelayMessageFwd (default None (tasks st !! ws))
                             (default "generic" mtype) (default "{}" body))) st.
Proof.
  intros Hp Hg.
  assert (Hc : PyDict.contains target (devices st) = true)
    by (apply contains_true; eauto).
  unfold Relay.handle_message, dispatch, on_relay_message.
  unfold bind, gets, local_device_id. simpl. rewrite Hp, Hc.
  unfold try_pass, devices_getitem. rewrite Hg.
  unfold send, send_effect. case_decide; [done|].
  by destruct (default None (tasks st !! ws)), target.
Qed.
End relay_facts.

(** ** Relaying *)

Section relay_claims.
Import Relay.
Local Open Scope list_scope.

(** C1 as stated fails: a sender without a directory entry has its message
    delivered.  Connection 2 never registered; its accepted
    [pair_response] stored the pair [(None, "mob_1")], and its
    [relay_message] then reaches the companion. *)
Lemma relay_from_unknown_sender_delivered :
  let st := Scenario.unregistered_accepts in
  let st' := Scenario.handle 2
               (RelayMessage (Some "mob_1") (Some "system_command") (Some "lock")) st in
  tasks st !! 2 = Some None ∧
  device_info st !! None = None ∧
  writes (trace st') =
    writes (trace st) ++ [(1, RelayMessageFwd None "system_command" "lock")] ∧
  delivered (trace st') =
    delivered (trace st) ++ [(1, RelayMessageFwd None "system_command" "lock")].
Proof. vm_compute. done. Qed.

(** C1, amended.  In a state where every connected device has a directory
    entry, a [relay_message] whose sender and target are not paired (in
    either order), or whose target has no directory entry, has one effect:
    a [relay_failed] written to the sender's websocket.  Nothing is written
    to anyone else.  The reason is "Devices are not paired" when they are
    not paired.  The sender's own directory entry is not looked at. *)
Theorem relay_refused_when_unpaired_or_target_unknown
    (clock : nat → string) (sha : string → string)
    (iter : relay → list (pyid * pyid))
    (st : relay) (ws : conn) (target mtype : pyid) (body : option string) :
  registry_in_directory st →
  is_paired (default None (tasks st !! ws)) target st = false
    ∨ device_info st !! target = None →
  let sender := default None (tasks st !! ws) in
  let st' := handle_message clock sha iter ws (RelayMessage target mtype body) st in
  trace st' =
    trace st ++
      [send_effect st ws
         (RelayFailed (if is_paired sender target st
                       then "Target device is offline"
                       else "Devices are not paired"))] ∧
  devices st' = devices st ∧
  paired_devices st' = paired_devices st.
Proof.
  intros Hinv Hcase sender st'. subst sender st'.
  destruct (is_paired (default None (tasks st !! ws)) target st) eqn:Hp.
  - destruct Hcase as [?|Hunknown]; [done|].
    rewrite relay_message_offline by auto using unknown_not_connected.
    done.
  - by rewrite relay_message_not_paired.
Qed.

Lemma relay_refused_when_unpaired_or_target_unknown_witness :
  let st := Scenario.two_registered in
  let st' := Scenario.handle 2 (RelayMessage (Some "host_1") None None) st in
  trace st' =
    trace st ++
      [send_effect st 2
         (RelayFailed (if is_paired (default None (tasks st !! 2)) (Some "host_1") st
                       then "Target device is offline"
                       else "Devices are not paired"))] ∧
  devices st' = devices st ∧
  paired_devices st' = paired_devices st.
Proof.
  apply (relay_refused_when_unpaired_or_target_unknown
           Scenario.demo_clock Scenario.demo_sha Scenario.demo_iter Scenario.two_registered 2
           (Some "host_1") None None).
  - vm_compute. repeat constructor; eauto.
  - left. vm_compute. reflexivity.
Defined.

(** C3 as stated fails: between paired devices with the target connected,
    the sender is told nothing, neither when the write to the target
    succeeds nor when it raises. *)
Lemma relay_outcome_not_reported :
  let st := Scenario.host_paired in
  let gone := Scenario.exec st [TransportLost 2] in
  let m := RelayMessage (Some "mob_1") (Some "auth_request") (Some "{}") in
  writes (trace (Scenario.handle 1 m st)) =
    writes (trace st) ++ [(2, RelayMessageFwd (Some "host_1") "auth_request" "{}")] ∧
  delivered (trace (Scenario.handle 1 m gone)) = delivered (trace gone) ∧
  writes (trace (Scenario.handle 1 m gone)) =
    writes (trace gone) ++ [(2, RelayMessageFwd (Some "host_1") "auth_request" "{}")].
Proof. vm_compute. done. Qed.

(** C3, amended.  For a [relay_message] between paired devices whose
    target is in the connection registry, the relay's only effect is one
    write of the tagged payload to the target's websocket; nothing is
    written to the sender, whether that write returns or raises, and the
    registry is left as it was. *)
Theorem relay_forward_reports_nothing
    (clock : nat → string) (sha : string → string)
    (iter : relay → list (pyid * pyid))
    (st : relay) (ws target_ws : conn) (target mtype : pyid)
    (body : option string) :
  is_paired (default None (tasks st !! ws)) target st = true →
  PyDict.get target (devices st) = Some target_ws →
  let sender := default None (tasks st !! ws) in
  let st' := handle_message clock sha iter ws (RelayMessage target mtype body) st in
  trace st' =
    trace st ++
      [send_effect st target_ws
         (RelayMessageFwd sender (default "generic" mtype) (default "{}" body))] ∧
  devices st' = devices st.
Proof.
  intros Hp Hg sender st'. subst sender st'.
  by rewrite (relay_message_forwarded _ _ _ _ _ _ _ _ target_ws).
Qed.

Lemma relay_forward_reports_nothing_witness :
  let st := Scenario.exec Scenario.host_paired [TransportLost 2] in
  let st' := Scenario.handle 1 (RelayMessage (Some "mob_1") None None) st in
  trace st' =
    trace st ++
      [send_effect st 2
         (RelayMessageFwd (default None (tasks st !! 1)) "generic" "{}")] ∧
  devices st' = devices st.
Proof.
  apply (relay_forward_reports_nothing
           Scenario.demo_clock Scenario.demo_sha Scenario.demo_iter
           (Scenario.exec Scenario.host_paired [TransportLost 2]) 1 2
           (Some "mob_1") None None).
  - vm_compute. reflexivity.
  - vm_compute. reflexivity.
Defined.
End relay_claims.

(** ** Answering a pairing offer *)

Section pair_response_facts.
Import Relay.
Variable clock : nat → string.
Variable sha256_hexdigest : string → string.
Variable iter_pairs : Relay.relay → list (pyid * pyid).

Local Abbreviation handle_message := (handle_message clock sha256_hexdigest iter_pairs).

Lemma slice8_state x st : (slice8 x st).2 = st.
Proof. by destruct x. Qed.

Lemma pair_response_not_connected st ws target accepted msg :
  PyDict.contains target (devices st) = false →
  handle_message ws (PairResponse target accepted msg) st = st.
Proof.
  intros Hc. unfold Relay.handle_message, dispatch, on_pair_response.
  unfold bind, gets, local_device_id. simpl. by rewrite Hc.
Qed.

Lemma pair_response_accept_stores st ws target msg :
  PyDict.contains target (devices st) = true →
  let st' := handle_message ws (PairResponse target true msg) st in
  paired_devices st' = {[ (default None (tasks st !! ws), target) ]} ∪ paired_devices st ∧
  device_info st' = device_info st ∧
  devices st' = devices st.
Proof.
  intros Hc. unfold Relay.handle_message, dispatch, on_pair_response.
  unfold bind, gets, local_device_id, modify, save_persistent_data. simpl.
  rewrite Hc. unfold device_info_getitem, devices_getitem, send. simpl.
  destruct (default None (tasks st !! ws)), target; simpl;
    repeat (case_match; simplify_eq/=; try done).
Qed.

Lemma pair_response_accept_trace st ws target_ws target msg host_rec target_rec :
  PyDict.get target (devices st) = Some target_ws →
  device_info st !! target = Some target_rec →
  device_info st !! default None (tasks st !! ws) = Some host_rec →
  ws ∉ lost st → target_ws ∉ lost st →
  trace (handle_message ws (PairResponse target true msg) st) =
    (trace st ++
      [ Saved (device_info st)
              ({[ (default None (tasks st !! ws), target) ]} ∪ paired_devices st);
        Sent ws (Paired target (device_name target_rec) true (default "" msg));
        Sent target_ws
             (Paired (default None (tasks st !! ws)) (device_name host_rec) true
                     "Successfully paired with laptop (persistent)") ])%list.
Proof.
  intros Hg Ht Hh Hws Htws.
  assert (Hc : PyDict.contains target (devices st) = true)
    by (apply contains_true; eauto).
  unfold Relay.handle_message, dispatch, on_pair_response.
  unfold bind, gets, local_device_id, modify, save_persistent_data. simpl.
  rewrite Hc. unfold device_info_getitem, devices_getitem, send. simpl.
  rewrite Ht. simpl. rewrite decide_False by done. simpl.
  rewrite Hg. simpl. rewrite Hh. simpl. rewrite decide_False by done. simpl.
  destruct (default None (tasks st !! ws)), target; simpl;
    by rewrite <- !app_assoc.
Qed.

Lemma is_paired_spec a b st :
  is_paired a b st = true ↔ (a, b) ∈ paired_devices st ∨ (b, a) ∈ paired_devices st.
Proof.
  unfold is_paired. rewrite orb_true_iff, !bool_decide_eq_true. done.
Qed.

Lemma is_paired_ext a b st st' :
  ((a, b) ∈ paired_devices st' ∨ (b, a) ∈ paired_devices st'
   ↔ (a, b) ∈ paired_devices st ∨ (b, a) ∈ paired_devices st) →
  is_paired a b st' = is_paired a b st.
Proof.
  intros Hiff. apply eq_true_iff_eq. by rewrite !is_paired_spec.
Qed.
End pair_response_facts.

Section pair_response_claims.
Import Relay.
Local Open Scope list_scope.

(** C2 as stated fails: when the named companion has no live session the
    accepted [pair_response] is dropped; no pairing is stored and nobody is
    notified. *)
Lemma pair_response_for_absent_companion_dropped :
  let st := Scenario.companion_gone in
  let st' := Scenario.handle 1 (PairResponse (Some "mob_1") true (Some "ok")) st in
  is_Some (device_info st !! Some "mob_1") ∧
  elements (paired_devices st') = [] ∧
  writes (trace st') = writes (trace st).
Proof. vm_compute. eauto. Qed.

(** C2, amended.  For a [pair_response] with [accepted] true whose target
    is in the connection registry and has a directory entry, sent by a host
    with a directory entry, and with both websockets writable: the pair
    (host, companion) is added to the pairing set and saved, then the host
    is written a [paired] message with the companion's identifier and name,
    then the companion one with the host's identifier and name.  When the
    target is not in the connection registry the message is dropped: the
    relay's state stays as it was. *)
Theorem pair_response_accept_pairs_and_notifies
    (clock : nat → string) (sha : string → string)
    (iter : relay → list (pyid * pyid))
    (st : relay) (ws : conn) (target msg : pyid) :
  let host := default None (tasks st !! ws) in
  let st' := handle_message clock sha iter ws (PairResponse target true msg) st in
  (∀ (target_ws : conn) (host_rec target_rec : device_record),
     PyDict.get target (devices st) = Some target_ws →
     device_info st !! target = Some target_rec →
     device_info st !! host = Some host_rec →
     ws ∉ lost st →
     target_ws ∉ lost st →
     paired_devices st' = {[ (host, target) ]} ∪ paired_devices st ∧
     trace st' =
       trace st ++
         [ Saved (device_info st) ({[ (host, target) ]} ∪ paired_devices st);
           Sent ws (Paired target (device_name target_rec) true (default "" msg));
           Sent target_ws
                (Paired host (device_name host_rec) true
                        "Successfully paired with laptop (persistent)") ]) ∧
  (PyDict.get target (devices st) = None → st' = st).
Proof.
  intros host st'. subst host st'. split.
  - intros target_ws host_rec target_rec Hg Ht Hh Hws Htws. split.
    + apply pair_response_accept_stores. apply contains_true. eauto.
    + by apply pair_response_accept_trace.
  - intros Hg. apply pair_response_not_connected. by apply contains_false.
Qed.

Lemma pair_response_accept_pairs_and_notifies_witness :
  let st := Scenario.two_registered in
  let st' := Scenario.handle 1 (PairResponse (Some "mob_1") true (Some "ok")) st in
  let gone := Scenario.companion_gone in
  paired_devices st' = {[ (Some "host_1", Some "mob_1") ]} ∪ paired_devices st ∧
  delivered (trace st') =
    delivered (trace st) ++
      [ (1, Paired (Some "mob_1") "Phone" true "ok");
        (2, Paired (Some "host_1") "Laptop" true
                   "Successfully paired with laptop (persistent)") ] ∧
  Scenario.handle 1 (PairResponse (Some "mob_1") true (Some "ok")) gone = gone.
Proof.
  destruct (pair_response_accept_pairs_and_notifies
              Scenario.demo_clock Scenario.demo_sha Scenario.demo_iter
              Scenario.two_registered 1 (Some "mob_1") (Some "ok"))
    as [Hpaired _].
  destruct (Hpaired 2
              (DeviceRecord (Some "laptop") "Laptop" "sha256:host_1:La"
                            "2024-01-01T00:00:00" "2024-01-01T00:00:01")
              (DeviceRecord (Some "mobile") "Phone" "sha256:mob_1:Pho"
                            "2024-01-01T00:00:02" "2024-01-01T00:00:03"))
    as [Hpairs Htrace].
  - vm_compute. reflexivity.
  - vm_compute. reflexivity.
  - vm_compute. reflexivity.
  - vm_compute. intros H. discriminate H.
  - vm_compute. intros H. discriminate H.
  - destruct (pair_response_accept_pairs_and_notifies
                Scenario.demo_clock Scenario.demo_sha Scenario.demo_iter
                Scenario.companion_gone 1 (Some "mob_1") (Some "ok"))
      as [_ Hdropped].
    intros st st' gone. split; [exact Hpairs|]. split.
    + unfold st', st, Scenario.handle. rewrite Htrace.
      unfold delivered. rewrite omap_app. reflexivity.
    + apply Hdropped. vm_compute. reflexivity.
Defined.
End pair_response_claims.

Section pairing_set_claims.
Import Relay.

(** C7 as stated fails: with [("host_1", "mob_1")] stored, an accepted
    [pair_response] in the other direction stores a second tuple. *)
Lemma reversed_pair_is_stored_again :
  let st := Scenario.host_paired in
  let st' := Scenario.handle 2 (PairResponse (Some "host_1") true None) st in
  elements (paired_devices st) = [(Some "host_1", Some "mob_1")] ∧
  size (paired_devices st') = 2 ∧
  paired_devices st' ≠ paired_devices st.
Proof.
  intros st st'.
  assert (H1 : elements (paired_devices st) = [(Some "host_1", Some "mob_1")])
    by (vm_compute; reflexivity).
  assert (H2 : size (paired_devices st') = 2) by (vm_compute; reflexivity).
  split; [done|]. split; [done|].
  intros Heq. rewrite Heq in H2. unfold size, set_size in H2. simpl in H2.
  rewrite H1 in H2. discriminate H2.
Qed.

(** C7, amended.  The pairing set holds ordered tuples.  When it already
    relates the two devices (in either order), an accepted [pair_response]
    leaves the set unchanged if the tuple (sender, target) itself is
    stored; if only the reversed tuple is stored and the target is
    connected, (sender, target) is added next to it.  In both cases the
    two-orders pairing check answers as before for every two devices. *)
Theorem pairing_add_keeps_relation
    (clock : nat → string) (sha : string → string)
    (iter : relay → list (pyid * pyid))
    (st : relay) (ws : conn) (target msg : pyid) :
  is_paired (default None (tasks st !! ws)) target st = true →
  let sender := default None (tasks st !! ws) in
  let st' := handle_message clock sha iter ws (PairResponse target true msg) st in
  paired_devices st' =
    (if decide ((sender, target) ∈ paired_devices st) then paired_devices st
     else if PyDict.contains target (devices st)
          then {[ (sender, target) ]} ∪ paired_devices st
          else paired_devices st) ∧
  (∀ a b, is_paired a b st' = is_paired a b st).
Proof.
  intros Hp sender st'. apply is_paired_spec in Hp. fold sender in Hp.
  assert (Hst' : paired_devices st' =
                 if PyDict.contains target (devices st)
                 then {[ (sender, target) ]} ∪ paired_devices st
                 else paired_devices st).
  { unfold st'. destruct (PyDict.contains target (devices st)) eqn:Hc.
    - by apply pair_response_accept_stores.
    - by rewrite pair_response_not_connected. }
  clearbody st' sender. split.
  - rewrite Hst'. case_decide; [|done].
    case_match; [|done].
    apply subseteq_union_1_L. by apply singleton_subseteq_l.
  - intros a b. apply is_paired_ext. rewrite Hst'.
    case_match; [|done].
    rewrite !elem_of_union, !elem_of_singleton. split; [|tauto].
    intros [[[= -> ->]|?]|[[= -> ->]|?]]; tauto.
Qed.

Lemma pairing_add_keeps_relation_witness :
  let st := Scenario.host_paired in
  let st' := Scenario.handle 1 (PairResponse (Some "mob_1") true None) st in
  paired_devices st' =
    (if decide ((default None (tasks st !! 1), Some "mob_1") ∈ paired_devices st)
     then paired_devices st
     else if PyDict.contains (Some "mob_1") (devices st)
          then {[ (default None (tasks st !! 1), Some "mob_1") ]} ∪ paired_devices st
          else paired_devices st) ∧
  (∀ a b, is_paired a b st' = is_paired a b st).
Proof.
  apply (pairing_add_keeps_relation
           Scenario.demo_clock Scenario.demo_sha Scenario.demo_iter Scenario.host_paired 1
           (Some "mob_1") None).
  vm_compute. reflexivity.
Defined.
End pairing_set_claims.

(** ** Registration *)

Section register_facts.
Import Relay.
Variable clock : nat → string.
Variable sha256_hexdigest : string → string.
Variable iter_pairs : Relay.relay → list (pyid * pyid).

Local Abbreviation handle_message := (handle_message clock sha256_hexdigest iter_pairs).

(** A colon neither completes nor starts a surrogate. *)
Lemma has_surrogate_colon (a b : string) :
  has_surrogate (a +:+ ":" +:+ b) = has_surrogate a || has_surrogate b.
Proof.
  induction a as [|c a IH].
  - by destruct b.
  - change (String c a +:+ ":" +:+ b) with (String c (a +:+ ":" +:+ b)).
    cbn [has_surrogate]. rewrite IH. destruct a as [|x a]; simpl.
    + by rewrite andb_false_r.
    + by rewrite orb_assoc.
Qed.

Lemma fingerprint_encode id name :
  str_encode (py_str id +:+ ":" +:+ default "Unknown" name) =
    if fingerprint_raises id name then None
    else Some (py_str id +:+ ":" +:+ default "Unknown" name).
Proof. unfold str_encode, fingerprint_raises. by rewrite has_surrogate_colon. Qed.

(** Lines 88-92 run before anything that can raise. *)
Lemma register_registry st ws id ty name :
  let st' := handle_message ws (Register id ty name) st in
  devices st' = PyDict.set id ws (devices st) ∧
  tasks st' = <[ws := id]> (tasks st) ∧
  lost st' = lost st ∧
  paired_devices st' = paired_devices st.
Proof.
  intros st'. unfold st', Relay.handle_message, dispatch, on_register.
  cbv zeta. rewrite !bind_modify.
  split_and!; keep; done.
Qed.

(** When the fingerprint raises, the handler stops after line 92. *)
Lemma register_raises st ws id ty name :
  fingerprint_raises id name = true →
  handle_message ws (Register id ty name) st
  = with_devices (PyDict.set id ws) (with_tasks <[ws := id]> st).
Proof.
  intros Hraise. unfold Relay.handle_message, dispatch, on_register.
  cbv zeta. rewrite !bind_modify. unfold generate_device_fingerprint.
  rewrite fingerprint_encode, Hraise. by rewrite bind_raise.
Qed.

Lemma register_directory st ws id ty name :
  device_info (handle_message ws (Register id ty name) st) =
    if fingerprint_raises id name then device_info st
    else
      match device_info st !! id with
      | Some _ => alter (touch (clock (ticks st))) id (device_info st)
      | None =>
          <[id := DeviceRecord ty (default "Unknown" name)
                    (String.substring 0 16
                       (sha256_hexdigest
                          (py_str id +:+ ":" +:+ default "Unknown" name)))
                    (clock (ticks st)) (clock (S (ticks st)))]> (device_info st)
      end.
Proof.
  destruct (fingerprint_raises id name) eqn:Hraise.
  { by rewrite register_raises. }
  unfold Relay.handle_message, dispatch, on_register.
  cbv zeta. rewrite !bind_modify. unfold generate_device_fingerprint.
  rewrite fingerprint_encode, Hraise. rewrite bind_ret, bind_gets.
  cbn [device_info with_devices with_tasks].
  destruct (device_info st !! id) as [r|] eqn:Hr.
  - rewrite bool_decide_eq_true_2 by eauto. cbn [negb].
    run_head. by keep.
  - rewrite bool_decide_eq_false_2 by (by intros [? ?]). cbn [negb].
    run_head. by keep.
Qed.
End register_facts.

Section register_claims.
Import Relay.
Local Open Scope list_scope.

(** C8 as stated fails: registering a known identifier under a new name
    leaves the stored name as it was; only [last_seen] moves. *)
Lemma reregistration_keeps_first_name :
  let st := Scenario.two_registered in
  let st' := Scenario.handle 2
               (Register (Some "mob_1") (Some "mobile") (Some "Renamed phone")) st in
  device_info st !! Some "mob_1" =
    Some (DeviceRecord (Some "mobile") "Phone" "sha256:mob_1:Pho"
                       "2024-01-01T00:00:02" "2024-01-01T00:00:03") ∧
  device_info st' !! Some "mob_1" =
    Some (DeviceRecord (Some "mobile") "Phone" "sha256:mob_1:Pho"
                       "2024-01-01T00:00:02" "2024-01-01T00:00:04").
Proof. vm_compute. done. Qed.

(** C8, amended.  Registering an identifier that already has a directory
    entry creates no record: the directory keeps its key set, and the entry
    keeps its type, name, fingerprint and [first_seen]; only [last_seen] is
    set to the current time.  When [device_id] or [device_name] holds a
    lone surrogate, the fingerprint computation raises before the directory
    is touched, and the directory is left exactly as it was. *)
Theorem reregistration_updates_last_seen_only
    (clock : nat → string) (sha : string → string)
    (iter : relay → list (pyid * pyid))
    (st : relay) (ws : conn) (id ty name : pyid) (r : device_record) :
  device_info st !! id = Some r →
  let st' := handle_message clock sha iter ws (Register id ty name) st in
  device_info st' =
    (if fingerprint_raises id name then device_info st
     else <[id := DeviceRecord (device_type r) (device_name r) (fingerprint r)
                    (first_seen r) (clock (ticks st))]> (device_info st)) ∧
  dom (device_info st') = dom (device_info st) ∧
  paired_devices st' = paired_devices st.
Proof.
  intros Hr st'.
  destruct (register_registry clock sha iter st ws id ty name) as (_ & _ & _ & Hp).
  pose proof (register_directory clock sha iter st ws id ty name) as Hi.
  fold st' in Hp, Hi. rewrite Hr in Hi.
  assert (Heq : device_info st' =
                if fingerprint_raises id name then device_info st
                else <[id := touch (clock (ticks st)) r]> (device_info st)).
  { rewrite Hi. destruct (fingerprint_raises id name); [done|].
    apply map_eq. intros k.
    destruct (decide (k = id)) as [->|Hne].
    - by rewrite lookup_alter_eq, lookup_insert_eq, Hr.
    - by rewrite lookup_alter_ne, lookup_insert_ne. }
  split; [exact Heq|]. split; [|exact Hp].
  rewrite Heq. destruct (fingerprint_raises id name); [done|].
  rewrite dom_insert_L.
  apply subseteq_union_1_L, singleton_subseteq_l, elem_of_dom. eauto.
Qed.

Lemma reregistration_updates_last_seen_only_witness :
  let st := Scenario.two_registered in
  let r := DeviceRecord (Some "mobile") "Phone" "sha256:mob_1:Pho"
                        "2024-01-01T00:00:02" "2024-01-01T00:00:03" in
  let st' := Scenario.handle 2
               (Register (Some "mob_1") (Some "mobile") (Some "Renamed phone")) st in
  let lone := String "237" (String "160" (String "128" "")) in
  let st'' := Scenario.handle 2
                (Register (Some "mob_1") (Some "mobile") (Some lone)) st in
  device_info st' =
    <[Some "mob_1" := DeviceRecord (device_type r) (device_name r) (fingerprint r)
                        (first_seen r) (Scenario.demo_clock (ticks st))]>
      (device_info st) ∧
  dom (device_info st') = dom (device_info st) ∧
  device_info st'' = device_info st.
Proof.
  intros st r st' lone st''.
  destruct (reregistration_updates_last_seen_only
              Scenario.demo_clock Scenario.demo_sha Scenario.demo_iter
              Scenario.two_registered 2
              (Some "mob_1") (Some "mobile") (Some "Renamed phone") r)
    as (Hentry & Hdom & _).
  { vm_compute. reflexivity. }
  destruct (reregistration_updates_last_seen_only
              Scenario.demo_clock Scenario.demo_sha Scenario.demo_iter
              Scenario.two_registered 2
              (Some "mob_1") (Some "mobile") (Some lone) r)
    as (Hsame & _ & _).
  { vm_compute. reflexivity. }
  split; [exact Hentry|]. split; [exact Hdom|exact Hsame].
Defined.

(** C5 as stated fails: after the second registration the first connection
    is still served under the same identifier and its transport is
    untouched; and once the first connection's handler leaves, the
    registry has no entry for the identifier although the second
    connection is still there. *)
Lemma superseded_session_stays_open :
  let st := Scenario.same_id_twice in
  let after := Scenario.exec st [HandlerExit 1] in
  PyDict.get (Some "host_1") (devices st) = Some 2 ∧
  tasks st !! 1 = Some (Some "host_1") ∧
  elements (lost st) = [] ∧
  PyDict.get (Some "host_1") (devices after) = None ∧
  tasks after !! 2 = Some (Some "host_1").
Proof. vm_compute. done. Qed.

(** C5, amended.  When an identifier that the registry maps to one
    connection registers from another connection, the registry entry is
    overwritten in place: looking the identifier up yields the second
    connection and the registry has no additional key.  The first
    connection is not closed: its handler keeps running under the same
    identifier and the set of lost transports is unchanged. *)
Theorem second_registration_replaces_entry
    (clock : nat → string) (sha : string → string)
    (iter : relay → list (pyid * pyid))
    (st : relay) (first second : conn) (id ty name : pyid) :
  PyDict.get id (devices st) = Some first →
  tasks st !! first = Some id →
  first ≠ second →
  let st' := handle_message clock sha iter second (Register id ty name) st in
  PyDict.get id (devices st') = Some second ∧
  PyDict.keys (devices st') = PyDict.keys (devices st) ∧
  tasks st' !! first = Some id ∧
  tasks st' !! second = Some id ∧
  lost st' = lost st.
Proof.
  intros Hg Ht Hne st'.
  destruct (register_registry clock sha iter st second id ty name)
    as (Hd & Hts & Hl & _).
  fold st' in Hd, Hts, Hl. rewrite Hd, Hts, Hl.
  repeat split.
  - apply get_set_eq.
  - apply keys_set_present. eauto.
  - by rewrite lookup_insert_ne.
  - by rewrite lookup_insert_eq.
Qed.

Lemma second_registration_replaces_entry_witness :
  let st := Scenario.first_session in
  let st' := Scenario.handle 2
               (Register (Some "host_1") (Some "laptop") (Some "Laptop")) st in
  PyDict.get (Some "host_1") (devices st') = Some 2 ∧
  PyDict.keys (devices st') = PyDict.keys (devices st) ∧
  tasks st' !! 1 = Some (Some "host_1") ∧
  tasks st' !! 2 = Some (Some "host_1") ∧
  lost st' = lost st.
Proof.
  apply (second_registration_replaces_entry
           Scenario.demo_clock Scenario.demo_sha Scenario.demo_iter Scenario.first_session 1 2
           (Some "host_1") (Some "laptop") (Some "Laptop")).
  - vm_compute. reflexivity.
  - vm_compute. reflexivity.
  - lia.
Defined.
End register_claims.

(** ** Forwarding a pairing offer *)

Section pair_request_facts.
Import Relay.
Local Open Scope list_scope.

Lemma offer_skips_other_devices st pre rest offer :
  Forall (λ item, is_laptop st item.1 = false) pre →
  offer_to_laptops (pre ++ rest) offer st = offer_to_laptops rest offer st.
Proof.
  induction 1 as [|[k c] pre Hk _ IH]; simpl; [done|].
  unfold bind, gets. unfold is_laptop in Hk. simpl in Hk. by rewrite Hk.
Qed.

Lemma offer_reaches_live_laptop st laptop_id laptop_ws rest offer :
  is_laptop st laptop_id = true →
  laptop_ws ∉ lost st →
  offer_to_laptops ((laptop_id, laptop_ws) :: rest) offer st
  = (Ret true, emit (Sent laptop_ws offer) st).
Proof.
  intros Hk Hl. simpl. unfold bind, gets. unfold is_laptop in Hk.
  rewrite Hk. unfold try_flag, send. by rewrite decide_False.
Qed.

Lemma offer_without_laptops st items offer :
  Forall (λ item, is_laptop st item.1 = false) items →
  offer_to_laptops items offer st = (Ret false, st).
Proof.
  intros Hall. rewrite <- (app_nil_r items).
  by rewrite offer_skips_other_devices.
Qed.

(** The loop changes neither the stores nor the disk. *)
Lemma offer_keeps_stores items offer : ∀ st,
  let st' := (offer_to_laptops items offer st).2 in
  device_info st' = device_info st ∧
  paired_devices st' = paired_devices st ∧
  disk st' = disk st ∧
  ∃ new, trace st' = trace st ++ new ∧ Forall (λ e, ∀ d p, e ≠ Saved d p) new.
Proof.
  induction items as [|[k c] items IH]; intros st; simpl.
  - split_and!; try done. exists []. by rewrite app_nil_r.
  - unfold bind, gets. case_match; [|apply IH].
    unfold try_flag, send. destruct (decide (c ∈ lost st)); simpl.
    + specialize (IH (emit (SendRaised c offer) st)). simpl in IH.
      destruct IH as (? & ? & ? & new & Hnew & Hall).
      split_and!; try done.
      exists (SendRaised c offer :: new).
      rewrite Hnew, <- app_assoc. split; [done|].
      constructor; [done|exact Hall].
    + split_and!; try done. exists [Sent c offer]. split; [done|].
      by constructor.
Qed.
End pair_request_facts.

Section pair_request_claims.
Import Relay.
Local Open Scope list_scope.

(** C6 as stated fails: an offer whose code is not six digits is written
    to the host, and the companion gets no [pairing_failed] from the
    relay. *)
Lemma malformed_code_is_forwarded :
  let st := Scenario.two_registered in
  let st' := Scenario.handle 2 (PairRequest (Some "12ab") (Some "Phone")) st in
  delivered (trace st') =
    delivered (trace st) ++ [(1, PairRequestFwd (Some "mob_1") (Some "12ab") "Phone")].
Proof. vm_compute. done. Qed.

(** C6, amended.  The relay does not look at the pairing code.  A
    [pair_request] is written, with its code as received, to the first
    device in registry order whose directory entry has type ['laptop'],
    when that websocket is writable; this is the handler's only effect. *)
Theorem pair_request_forwarded_unchecked
    (clock : nat → string) (sha : string → string)
    (iter : relay → list (pyid * pyid))
    (st : relay) (ws laptop_ws : conn) (code name laptop_id : pyid)
    (pre post : list (pyid * conn)) :
  devices st = pre ++ (laptop_id, laptop_ws) :: post →
  Forall (λ item, is_laptop st item.1 = false) pre →
  is_laptop st laptop_id = true →
  laptop_ws ∉ lost st →
  let st' := handle_message clock sha iter ws (PairRequest code name) st in
  trace st' =
    trace st ++
      [Sent laptop_ws
         (PairRequestFwd (default None (tasks st !! ws)) code
                         (default "Mobile" name))] ∧
  paired_devices st' = paired_devices st.
Proof.
  intros Hd Hpre Hk Hl st'. subst st'.
  unfold handle_message, dispatch, on_pair_request.
  unfold bind, gets, local_device_id. simpl. rewrite Hd.
  rewrite offer_skips_other_devices by done.
  by rewrite offer_reaches_live_laptop.
Qed.

Lemma pair_request_forwarded_unchecked_witness :
  let st := Scenario.two_registered in
  let st' := Scenario.handle 2 (PairRequest (Some "not a code") None) st in
  trace st' =
    trace st ++
      [Sent 1 (PairRequestFwd (default None (tasks st !! 2))
                              (Some "not a code") (default "Mobile" None))] ∧
  paired_devices st' = paired_devices st.
Proof.
  apply (pair_request_forwarded_unchecked
           Scenario.demo_clock Scenario.demo_sha Scenario.demo_iter Scenario.two_registered 2 1
           (Some "not a code") None (Some "host_1") [] [(Some "mob_1", 2)]).
  - vm_compute. reflexivity.
  - constructor.
  - vm_compute. reflexivity.
  - vm_compute. intros H. discriminate H.
Defined.

(** With no laptop in the registry the companion is told so, whatever the
    code. *)
Lemma pair_request_without_laptops
    (clock : nat → string) (sha : string → string)
    (iter : relay → list (pyid * pyid))
    (st : relay) (ws : conn) (code name : pyid) :
  Forall (λ item, is_laptop st item.1 = false) (devices st) →
  handle_message clock sha iter ws (PairRequest code name) st
  = emit (send_effect st ws (PairingFailed "No laptops available")) st.
Proof.
  intros Hall. unfold handle_message, dispatch, on_pair_request.
  unfold bind, gets, local_device_id. simpl.
  rewrite offer_without_laptops by done. simpl. apply send_state.
Qed.
End pair_request_claims.

(** ** Persistence *)

Section persistence_facts.
Import Relay.
Local Open Scope list_scope.
Variable clock : nat → string.
Variable sha256_hexdigest : string → string.
Variable iter_pairs : Relay.relay → list (pyid * pyid).

Local Abbreviation handle_message := (handle_message clock sha256_hexdigest iter_pairs).
Local Abbreviation step := (step clock sha256_hexdigest iter_pairs).

Lemma files_differ : DEVICES_FILE ≠ PAIRINGS_FILE.
Proof. done. Qed.

Lemma saved_devices_file st fs :
  fs_run (save_ops st) fs !! DEVICES_FILE = Some (DevicesJson (device_info st)).
Proof.
  unfold fs_run, save_ops. simpl.
  rewrite !lookup_insert_ne by (symmetry; apply files_differ).
  apply lookup_insert_eq.
Qed.

Lemma saved_pairings_file st fs :
  fs_run (save_ops st) fs !! PAIRINGS_FILE
  = Some (PairingsJson (elements (paired_devices st))).
Proof. unfold fs_run, save_ops. simpl. apply lookup_insert_eq. Qed.

(** When no file operation raises, [save_persistent_data] leaves both
    files equal to the stores. *)
Lemma save_flushes st :
  next_fault st = None → flushed (save_persistent_data st).2.
Proof.
  intros Hok. unfold flushed, save_persistent_data, modify. simpl.
  rewrite Hok. simpl.
  split; [apply saved_devices_file|apply saved_pairings_file].
Qed.

Lemma saved_first_flushed st st' :
  saved_first st st' → next_fault st = None → flushed st'.
Proof.
  intros [Hdisk _] Hok. rewrite Hok in Hdisk. simpl in Hdisk.
  split; rewrite Hdisk; [apply saved_devices_file|apply saved_pairings_file].
Qed.

(** A save that fails leaves the files as the operations before the failing
    one made them: what a crash at that point would leave. *)
Lemma save_fails st k :
  next_fault st = Some k →
  disk (save_persistent_data st).2 = crash_during_save k st.
Proof.
  intros Hk. unfold save_persistent_data, modify, crash_during_save. simpl.
  by rewrite Hk.
Qed.

(** A crash right after the first [open(.., 'w')] leaves an empty
    directory file. *)
Lemma crash_after_open st :
  crash_during_save 1 st !! DEVICES_FILE = Some Truncated.
Proof.
  unfold crash_during_save, save_ops, fs_run. simpl. apply lookup_insert_eq.
Qed.
End persistence_facts.

Section persistence_steps.
Import Relay.
Local Open Scope list_scope.
Variable clock : nat → string.
Variable sha256_hexdigest : string → string.
Variable iter_pairs : Relay.relay → list (pyid * pyid).

Local Abbreviation handle_message := (handle_message clock sha256_hexdigest iter_pairs).
Local Abbreviation step := (step clock sha256_hexdigest iter_pairs).

Lemma save_ops_ext a b :
  device_info a = device_info b → paired_devices a = paired_devices b →
  save_ops a = save_ops b.
Proof. unfold save_ops. by intros -> ->. Qed.

Lemma grows_emit (P : effect → Prop) e st : P e → grows P st (emit e st).
Proof. intros He. exists [e]. split; [done|]. by constructor. Qed.

Lemma grows_same (P : effect → Prop) st st' : trace st' = trace st → grows P st st'.
Proof. intros Ht. exists []. by rewrite app_nil_r. Qed.

Local Ltac grows_any :=
  respects_all; first [by apply grows_emit | by apply grows_same].

(** A save followed by statements that touch neither the stores nor the
    files. *)
Lemma saved_then {A} (k : unit → M A) s :
  (∀ u, respects (same device_info) (k u)) →
  (∀ u, respects (same paired_devices) (k u)) →
  (∀ u, respects (same disk) (k u)) →
  (∀ u, respects (grows (λ _, True)) (k u)) →
  let s' := (bind save_persistent_data k s).2 in
  device_info s' = device_info s ∧
  paired_devices s' = paired_devices s ∧
  disk s' = fs_run (ops_until (next_fault s) (save_ops s')) (disk s) ∧
  ∃ post, trace s' = trace s ++ Saved (device_info s') (paired_devices s') :: post.
Proof.
  intros Hi Hp Hd Ht s'. unfold s', save_persistent_data. rewrite bind_modify.
  set (s1 := emit _ _). fold s1 in s'.
  assert (Hi' : device_info (k () s1).2 = device_info s) by exact (Hi () s1).
  assert (Hp' : paired_devices (k () s1).2 = paired_devices s) by exact (Hp () s1).
  assert (Hd' : disk (k () s1).2 = disk s1) by exact (Hd () s1).
  split; [done|]. split; [done|]. split.
  - rewrite Hd'. simpl. f_equal. f_equal. by apply save_ops_ext.
  - destruct (Ht () s1) as (post & Hpost & _). exists post.
    rewrite Hpost, Hi', Hp'. simpl. by rewrite <- app_assoc.
Qed.

(** The step is at a save: what is left to show is that the statements
    after it touch neither the stores nor the files. *)
Local Ltac saved_here :=
  lazymatch goal with
  | |- saved_first _ ((bind save_persistent_data ?k ?s).2) =>
      let Hd := fresh in let Ht := fresh in let post := fresh in
      destruct (saved_then k s) as (_ & _ & Hd & post & Ht);
      [ intros ?; respects_all; done
      | intros ?; respects_all; done
      | intros ?; respects_all; done
      | intros ?; grows_any
      | split; [exact Hd|exists [], post; split; [exact Ht|done]] ]
  end.

Lemma register_saved st ws id ty name :
  fingerprint_raises id name = false →
  saved_first st (handle_message ws (Register id ty name) st).
Proof.
  intros Hclean. unfold Relay.handle_message, dispatch, on_register.
  cbv zeta. run_head. unfold generate_device_fingerprint.
  rewrite fingerprint_encode, Hclean. run_head.
  destruct (negb _); run_head; saved_here.
Qed.

Lemma register_saves st ws id ty name :
  let st' := handle_message ws (Register id ty name) st in
  unchanged st st' ∨ saved_first st st'.
Proof.
  destruct (fingerprint_raises id name) eqn:Hraise.
  - left. by rewrite register_raises.
  - right. by apply register_saved.
Qed.

Lemma pair_response_saves st ws target accepted msg :
  let st' := handle_message ws (PairResponse target accepted msg) st in
  unchanged st st' ∨ saved_first st st'.
Proof.
  unfold Relay.handle_message, dispatch, on_pair_response, local_device_id.
  cbv zeta. run_head.
  destruct (PyDict.contains target (devices st)); [|by left].
  destruct accepted.
  - right. run_head. saved_here.
  - left. split; keep; done.
Qed.

Lemma unpair_saves st ws target :
  saved_first st (handle_message ws (UnpairDevice target) st).
Proof.
  unfold Relay.handle_message, dispatch, on_unpair_device, local_device_id.
  cbv zeta. run_head. saved_here.
Qed.

Lemma relay_message_keeps_stores st ws target mtype body :
  unchanged st (handle_message ws (RelayMessage target mtype body) st).
Proof.
  unfold Relay.handle_message, dispatch, on_relay_message, local_device_id.
  split; keep; done.
Qed.

Lemma pair_request_keeps_stores st ws code name :
  unchanged st (handle_message ws (PairRequest code name) st).
Proof.
  unfold Relay.handle_message, dispatch, on_pair_request, local_device_id.
  split; keep; done.
Qed.

Lemma cleanup_saves st ws :
  let st' := (cleanup clock ws st).2 in
  unchanged st st' ∨
  (disk st' = fs_run (ops_until (next_fault st) (save_ops st')) (disk st) ∧
   trace st' = trace st ++ [Saved (device_info st') (paired_devices st')]).
Proof.
  unfold cleanup, local_device_id. run_head.
  destruct (py_truthy _ && _); [|by left]. run_head.
  destruct (bool_decide _); [|by left]. run_head.
  right. by split.
Qed.

Lemma handler_exit_saves st ws :
  let st' := handler_exit clock ws st in
  unchanged st st' ∨
  (disk st' = fs_run (ops_until (next_fault st) (save_ops st')) (disk st) ∧
   trace st' = trace st ++ [Saved (device_info st') (paired_devices st')]).
Proof. unfold handler_exit. simpl. apply cleanup_saves. Qed.

Lemma step_saves st ev :
  let st' := step st ev in unchanged st st' ∨ saved_first st st'.
Proof.
  destruct ev as [ws|ws m|ws|ws]; simpl; try (by left).
  - case_decide; [|by left].
    destruct m.
    + apply register_saves.
    + left. apply pair_request_keeps_stores.
    + apply pair_response_saves.
    + right. apply unpair_saves.
    + left. apply relay_message_keeps_stores.
    + by left.
    + unfold Relay.handle_message, send. case_decide; simpl; [|by left].
      destruct (handler_exit_saves (emit (SendRaised ws (Error "Invalid JSON")) st) ws)
        as [Hu|[Hf Ht]]; [by left|].
      right. split; [done|].
      exists [SendRaised ws (Error "Invalid JSON")], []. split; [|done].
      rewrite Ht. simpl. by rewrite <- app_assoc.
  - case_decide; [|by left].
    destruct (handler_exit_saves (with_lost (λ s, {[ws]} ∪ s) st) ws)
      as [Hu|[Hf Ht]]; [by left|].
    right. split; [done|]. exists [], []. by split.
Qed.
End persistence_steps.

Section persistence_claims.
Import Relay.
Local Open Scope list_scope.

(** C9 as stated fails: the files are rewritten in place.  With both files
    holding the stores, a crash after the first file operation of a save
    leaves the directory file empty, which is neither what it held before
    nor what the save was writing. *)
Lemma crash_in_save_empties_directory_file :
  let st := Scenario.two_registered in
  flushed st ∧
  crash_during_save 1 st !! DEVICES_FILE = Some Truncated ∧
  crash_during_save 1 st !! DEVICES_FILE ≠ disk st !! DEVICES_FILE ∧
  crash_during_save 1 st !! DEVICES_FILE ≠ crash_during_save 4 st !! DEVICES_FILE.
Proof.
  intros st.
  assert (Hf : flushed st) by (split; vm_compute; reflexivity).
  assert (H4 : crash_during_save 4 st !! DEVICES_FILE
               = Some (DevicesJson (device_info st)))
    by apply saved_devices_file.
  split_and!; [done|apply crash_after_open| |].
  - rewrite crash_after_open. destruct Hf as [-> _]. done.
  - rewrite crash_after_open, H4. done.
Qed.

(** C9, amended.  Every step of the relay that changes the device
    directory or the pairing set calls [save_persistent_data] on the
    changed stores before any message of that step is delivered.  When no
    file operation of that save raises, both files then hold the full
    stores.  When one raises, the error is only logged: the files are left
    as the operations before it made them (untouched when the first [open]
    fails) while the stores in memory stay changed.  The save rewrites each
    file in place: it truncates the file and then dumps into it, so a crash
    between the two leaves a truncated file. *)
Theorem store_changes_saved_before_delivery
    (clock : nat → string) (sha : string → string)
    (iter : relay → list (pyid * pyid)) (st : relay) (ev : event) :
  let st' := step clock sha iter st ev in
  device_info st' ≠ device_info st ∨ paired_devices st' ≠ paired_devices st →
  (∃ pre post,
     trace st' =
       trace st ++ pre ++ Saved (device_info st') (paired_devices st') :: post ∧
     delivered pre = []) ∧
  disk st' = fs_run (ops_until (next_fault st) (save_ops st')) (disk st) ∧
  (next_fault st = None → flushed st') ∧
  (next_fault st = Some 0 → disk st' = disk st) ∧
  (∀ s, crash_during_save 1 s !! DEVICES_FILE = Some Truncated).
Proof.
  intros st' Hchanged.
  destruct (step_saves clock sha iter st ev) as [[Hi Hp]|Hsaved].
  - fold st' in Hi, Hp. destruct Hchanged; congruence.
  - fold st' in Hsaved. pose proof Hsaved as [Hdisk Htr].
    split_and!; [exact Htr|exact Hdisk| | |apply crash_after_open].
    + by apply saved_first_flushed.
    + intros Hk. by rewrite Hdisk, Hk.
Qed.

Lemma store_changes_saved_before_delivery_witness :
  let m := Message 1 (PairResponse (Some "mob_1") true None) in
  let st := Scenario.two_registered in
  let st' := Scenario.exec st [m] in
  let full := with_write_faults (λ _, [Some 0]) st in
  let full' := Scenario.exec full [m] in
  flushed st' ∧
  (∃ pre post,
     trace st' =
       trace st ++ pre ++ Saved (device_info st') (paired_devices st') :: post ∧
     delivered pre = []) ∧
  paired_devices full' ≠ paired_devices full ∧
  disk full' = disk full ∧
  delivered (trace full') =
    delivered (trace full) ++
      [ (1, Paired (Some "mob_1") "Phone" true "");
        (2, Paired (Some "host_1") "Laptop" true
              "Successfully paired with laptop (persistent)") ].
Proof.
  intros m st st' full full'.
  assert (Hst : paired_devices st' ≠ paired_devices st).
  { intros Heq. apply (f_equal size) in Heq. vm_compute in Heq. discriminate Heq. }
  assert (Hfull : paired_devices full' ≠ paired_devices full).
  { intros Heq. apply (f_equal size) in Heq. vm_compute in Heq. discriminate Heq. }
  destruct (store_changes_saved_before_delivery
              Scenario.demo_clock Scenario.demo_sha Scenario.demo_iter st
              (Message 1 (PairResponse (Some "mob_1") true None)) (or_intror Hst))
    as (Htr & _ & Hflushed & _).
  destruct (store_changes_saved_before_delivery
              Scenario.demo_clock Scenario.demo_sha Scenario.demo_iter full
              (Message 1 (PairResponse (Some "mob_1") true None)) (or_intror Hfull))
    as (_ & _ & _ & Huntouched & _).
  split_and!.
  - apply Hflushed. reflexivity.
  - exact Htr.
  - exact Hfull.
  - apply Huntouched. reflexivity.
  - vm_compute. reflexivity.
Defined.
End persistence_claims.

(** ** The registry stays inside the directory *)

Section registry_invariant.
Import Relay.
Local Open Scope list_scope.
Variable clock : nat → string.
Variable sha256_hexdigest : string → string.
Variable iter_pairs : Relay.relay → list (pyid * pyid).

Local Abbreviation handle_message := (handle_message clock sha256_hexdigest iter_pairs).
Local Abbreviation step := (step clock sha256_hexdigest iter_pairs).
Local Abbreviation run := (run clock sha256_hexdigest iter_pairs).

Lemma registry_mono st st' :
  (∀ k, k ∈ PyDict.keys (devices st') → k ∈ PyDict.keys (devices st)) →
  (∀ k, is_Some (device_info st !! k) → is_Some (device_info st' !! k)) →
  registry_in_directory st → registry_in_directory st'.
Proof.
  unfold registry_in_directory. rewrite !Forall_forall. eauto.
Qed.

Lemma alter_keeps_entries (f : device_record → device_record) (i k : pyid)
    (m : gmap pyid device_record) :
  is_Some (m !! k) → is_Some (alter f i m !! k).
Proof.
  intros Hk. rewrite lookup_alter. case_decide; [subst|done].
  by apply fmap_is_Some.
Qed.

(** Only [register] and the end of a handler write to the registry. *)
Lemma message_keeps_devices st ws m :
  match m with Register _ _ _ | InvalidJSON => False | _ => True end →
  devices (handle_message ws m st) = devices st.
Proof.
  destruct m; intros Hm; try done; unfold Relay.handle_message, dispatch.
  - unfold on_pair_request, local_device_id. by keep.
  - unfold on_pair_response, local_device_id. by keep.
  - unfold on_unpair_device, local_device_id. by keep.
  - unfold on_relay_message, local_device_id. by keep.
Qed.

Lemma message_keeps_directory st ws m :
  match m with Register _ _ _ | InvalidJSON => False | _ => True end →
  device_info (handle_message ws m st) = device_info st.
Proof.
  destruct m; intros Hm; try done; unfold Relay.handle_message, dispatch.
  - unfold on_pair_request, local_device_id. by keep.
  - unfold on_pair_response, local_device_id. by keep.
  - unfold on_unpair_device, local_device_id. by keep.
  - unfold on_relay_message, local_device_id. by keep.
Qed.

(** A registration whose fingerprint can be computed keeps every connected
    device in the directory. *)
Lemma register_keeps_registry st ws id ty name :
  fingerprint_raises id name = false →
  registry_in_directory st →
  registry_in_directory (handle_message ws (Register id ty name) st).
Proof.
  unfold registry_in_directory. rewrite !Forall_forall. intros Hclean Hinv k Hk.
  destruct (register_registry clock sha256_hexdigest iter_pairs st ws id ty name)
    as (Hd & _).
  rewrite Hd in Hk. rewrite register_directory, Hclean.
  destruct (decide (k = id)) as [->|Hne].
  - destruct (device_info st !! id) as [r|] eqn:Hr.
    + rewrite lookup_alter_eq, Hr. eauto.
    + rewrite lookup_insert_eq. eauto.
  - apply keys_set in Hk as [?|Hk]; [done|].
    destruct (device_info st !! id) as [r|] eqn:Hr.
    + rewrite lookup_alter_ne by done. by apply Hinv.
    + rewrite lookup_insert_ne by done. by apply Hinv.
Qed.

Lemma handler_exit_keeps_registry st ws :
  registry_in_directory st → registry_in_directory (handler_exit clock ws st).
Proof.
  intros Hinv. unfold handler_exit.
  apply (registry_mono st); [| |done]; simpl.
  - unfold cleanup, local_device_id. run_head.
    destruct (py_truthy _ && _); [|done]. run_head.
    destruct (bool_decide _); run_head; apply keys_del.
  - unfold cleanup, local_device_id. run_head.
    destruct (py_truthy _ && _); [|done]. run_head.
    destruct (bool_decide _); run_head; [|done].
    intros k. apply alter_keeps_entries.
Qed.

Lemma message_keeps_registry st ws m :
  registers_cleanly (Message ws m) →
  registry_in_directory st → registry_in_directory (handle_message ws m st).
Proof.
  intros Hclean Hinv.
  destruct m as [id ty name|code name|target acc msg|target|target mt body| |];
    try (apply (registry_mono st); [| |done];
         [by rewrite message_keeps_devices|by rewrite message_keeps_directory]).
  - by apply register_keeps_registry.
  - unfold Relay.handle_message, send. case_decide; simpl; [|done].
    by apply handler_exit_keeps_registry.
Qed.

Lemma step_keeps_registry st ev :
  registers_cleanly ev →
  registry_in_directory st → registry_in_directory (step st ev).
Proof.
  intros Hclean Hinv. destruct ev as [ws|ws m|ws|ws]; simpl; try done.
  - case_decide; [|done]. by apply message_keeps_registry.
  - case_decide; [|done]. by apply handler_exit_keeps_registry.
Qed.

(** X27.  Every state the relay reaches from a start with an empty registry,
    through events among which no registration makes the fingerprint raise,
    keeps its connected devices inside the directory. *)
Lemma registry_in_directory_reachable st evs :
  devices st = [] →
  Forall registers_cleanly evs →
  registry_in_directory (run st evs).
Proof.
  intros Hempty.
  assert (Hinv : registry_in_directory st).
  { unfold registry_in_directory. rewrite Hempty. constructor. }
  clear Hempty. revert st Hinv.
  induction evs as [|ev evs IH]; intros st Hinv Hclean; simpl; [done|].
  apply Forall_cons in Hclean as [Hev Hclean].
  apply IH; [|done]. by apply step_keeps_registry.
Qed.
End registry_invariant.

(** * Further properties of the relay *)

(** ** Unpairing *)

Section unpair_facts.
Import Relay.
Local Open Scope list_scope.
Variable clock : nat → string.
Variable sha256_hexdigest : string → string.
Variable iter_pairs : Relay.relay → list (pyid * pyid).

Local Abbreviation handle_message := (handle_message clock sha256_hexdigest iter_pairs).

Lemma unpair_state st ws target :
  let sender := default None (tasks st !! ws) in
  let st' := handle_message ws (UnpairDevice target) st in
  paired_devices st' =
    filter (λ pair, ¬ (in_pair sender pair && in_pair target pair)) (paired_devices st) ∧
  device_info st' = device_info st ∧
  devices st' = devices st ∧
  tasks st' = tasks st ∧
  lost st' = lost st.
Proof.
  unfold Relay.handle_message, dispatch, on_unpair_device.
  unfold bind, gets, local_device_id, modify, save_persistent_data. simpl.
  unfold device_info_getitem, devices_getitem, send, ret, raise. simpl.
  destruct (default None (tasks st !! ws)), target; simpl;
    repeat (case_match; unfold ret, raise in *; simplify_eq/=); done.
Qed.

Lemma in_pair_spec (x : pyid) (pair : pyid * pyid) :
  in_pair x pair = true ↔ pair.1 = x ∨ pair.2 = x.
Proof. unfold in_pair. by rewrite orb_true_iff, !bool_decide_eq_true. Qed.

Lemma unpair_member st ws target pair :
  let sender := default None (tasks st !! ws) in
  pair ∈ paired_devices (handle_message ws (UnpairDevice target) st) ↔
  pair ∈ paired_devices st ∧ (in_pair sender pair && in_pair target pair) = false.
Proof.
  intros sender. destruct (unpair_state st ws target) as (-> & _).
  rewrite elem_of_filter. fold sender.
  destruct (in_pair sender pair && in_pair target pair); simpl.
  - split; [intros [Hno _]; by destruct Hno|by intros [_ ?]].
  - split; [by intros [_ ?]|intros [? _]; split; [by intros []|done]].
Qed.

(** X1.  After [unpair_device] the sender and the target are not paired,
    whichever of the two tuples was stored, and the pairing set has lost
    exactly the tuples that contain both identifiers. *)
Theorem unpair_removes_both_orders st ws target :
  let sender := default None (tasks st !! ws) in
  let st' := handle_message ws (UnpairDevice target) st in
  is_paired sender target st' = false ∧
  is_paired target sender st' = false ∧
  (∀ pair, pair ∈ paired_devices st' ↔
           pair ∈ paired_devices st ∧
           (in_pair sender pair && in_pair target pair) = false).
Proof.
  intros sender st'.
  assert (Hgone : ∀ a b, in_pair sender (a, b) && in_pair target (a, b) = true →
                         (a, b) ∉ paired_devices st').
  { intros a b Hboth Hin. apply unpair_member in Hin as [_ Hno].
    fold sender in Hno. congruence. }
  assert (Hst : in_pair sender (sender, target) && in_pair target (sender, target) = true).
  { apply andb_true_iff. rewrite !in_pair_spec. simpl. auto. }
  assert (Hts : in_pair sender (target, sender) && in_pair target (target, sender) = true).
  { apply andb_true_iff. rewrite !in_pair_spec. simpl. auto. }
  split_and!.
  - apply not_true_is_false. rewrite is_paired_spec.
    intros [Hin|Hin]; [exact (Hgone _ _ Hst Hin)|exact (Hgone _ _ Hts Hin)].
  - apply not_true_is_false. rewrite is_paired_spec.
    intros [Hin|Hin]; [exact (Hgone _ _ Hts Hin)|exact (Hgone _ _ Hst Hin)].
  - intros pair. apply unpair_member.
Qed.

(** X2.  Unpairing two different devices that are not paired leaves the
    pairing set as it was. *)
Theorem unpair_absent_pair_keeps_set st ws target :
  default None (tasks st !! ws) ≠ target →
  is_paired (default None (tasks st !! ws)) target st = false →
  paired_devices (handle_message ws (UnpairDevice target) st) = paired_devices st.
Proof.
  intros Hne Hp. apply set_eq. intros [a b]. rewrite unpair_member.
  split; [tauto|]. intros Hin. split; [done|].
  apply not_true_is_false. rewrite andb_true_iff, !in_pair_spec. simpl.
  apply not_true_iff_false in Hp. rewrite is_paired_spec in Hp.
  intros [[Ha|Hb] [Ha'|Hb']]; subst; tauto.
Qed.

(** X3.  A client that names itself as the target of [unpair_device] loses
    every pairing it is part of. *)
Theorem unpair_self_removes_every_pairing st ws :
  let sender := default None (tasks st !! ws) in
  let st' := handle_message ws (UnpairDevice sender) st in
  ∀ pair, pair ∈ paired_devices st' ↔
          pair ∈ paired_devices st ∧ in_pair sender pair = false.
Proof.
  intros sender st' pair. unfold st'. rewrite unpair_member. fold sender.
  by rewrite andb_diag.
Qed.

(** X4.  [unpair_device] saves the reduced pairing set first, then answers
    the requester with [unpaired], then tells the other device, if and only
    if that device is in the connection registry. *)
Theorem unpair_answers_requester_then_peer st ws target :
  ws ∉ lost st →
  let sender := default None (tasks st !! ws) in
  let st' := handle_message ws (UnpairDevice target) st in
  trace st' =
    trace st ++
      [ Saved (device_info st) (paired_devices st');
        Sent ws (Unpaired target "Device unpaired successfully") ] ++
      match PyDict.get target (devices st) with
      | Some target_ws =>
          [send_effect st target_ws (Unpaired sender "Device was unpaired remotely")]
      | None => []
      end.
Proof.
  intros Hws sender st'.
  destruct (unpair_state st ws target) as (Hp & _). fold st' in Hp. rewrite Hp.
  unfold st', sender.
  unfold Relay.handle_message, dispatch, on_unpair_device.
  unfold bind, gets, local_device_id, modify, save_persistent_data. simpl.
  unfold send. simpl. rewrite decide_False by done. simpl.
  unfold PyDict.contains, devices_getitem, send_effect. simpl.
  destruct (PyDict.get target (devices st)) as [tws|] eqn:Hg; simpl.
  - rewrite Hg. simpl.
    destruct (default None (tasks st !! ws)), target; simpl;
      case_decide; simpl; by rewrite <- !app_assoc.
  - destruct (default None (tasks st !! ws)), target; simpl;
      by rewrite <- !app_assoc.
Qed.
End unpair_facts.

Section unpair_witnesses.
Import Relay.
Local Open Scope list_scope.

Lemma unpair_absent_pair_keeps_set_witness :
  paired_devices (Scenario.handle 2 (UnpairDevice (Some "host_1")) Scenario.two_registered)
  = paired_devices Scenario.two_registered.
Proof.
  apply (unpair_absent_pair_keeps_set
           Scenario.demo_clock Scenario.demo_sha Scenario.demo_iter Scenario.two_registered 2
           (Some "host_1")).
  - vm_compute. intros H. discriminate H.
  - vm_compute. reflexivity.
Defined.

Lemma unpair_answers_requester_then_peer_witness :
  let st := Scenario.host_paired in
  let st' := Scenario.handle 2 (UnpairDevice (Some "host_1")) st in
  trace st' =
    trace st ++
      [ Saved (device_info st) (paired_devices st');
        Sent 2 (Unpaired (Some "host_1") "Device unpaired successfully") ] ++
      match PyDict.get (Some "host_1") (devices st) with
      | Some target_ws =>
          [send_effect st target_ws
             (Unpaired (default None (tasks st !! 2)) "Device was unpaired remotely")]
      | None => []
      end.
Proof.
  apply (unpair_answers_requester_then_peer
           Scenario.demo_clock Scenario.demo_sha Scenario.demo_iter Scenario.host_paired 2
           (Some "host_1")).
  vm_compute. intros H. discriminate H.
Defined.
End unpair_witnesses.

(** ** Accepting, rejecting and relaying *)

Section pairing_outcomes.
Import Relay.
Local Open Scope list_scope.
Variable clock : nat → string.
Variable sha256_hexdigest : string → string.
Variable iter_pairs : Relay.relay → list (pyid * pyid).

Local Abbreviation handle_message := (handle_message clock sha256_hexdigest iter_pairs).

Lemma pair_response_accept_paired st ws target msg :
  PyDict.contains target (devices st) = true →
  let sender := default None (tasks st !! ws) in
  let st' := handle_message ws (PairResponse target true msg) st in
  is_paired sender target st' = true ∧ is_paired target sender st' = true.
Proof.
  intros Hc sender st'.
  destruct (pair_response_accept_stores clock sha256_hexdigest iter_pairs st ws target msg Hc)
    as (Hp & _).
  fold st' sender in Hp.
  assert (Hin : (sender, target) ∈ paired_devices st').
  { rewrite Hp. apply elem_of_union_l. by apply elem_of_singleton. }
  split; apply is_paired_spec; auto.
Qed.

(** X5.  Once an accepted [pair_response] names a connected target, the two
    devices are paired in both directions of the check, even when a
    notification that follows raises (the pair is stored before any write). *)
Theorem accepted_pairing_is_symmetric st ws target msg :
  PyDict.contains target (devices st) = true →
  let sender := default None (tasks st !! ws) in
  let st' := handle_message ws (PairResponse target true msg) st in
  is_paired sender target st' = true ∧ is_paired target sender st' = true.
Proof. apply pair_response_accept_paired. Qed.

Lemma pair_response_reject_state st ws target target_ws msg :
  PyDict.get target (devices st) = Some target_ws →
  let st' := handle_message ws (PairResponse target false msg) st in
  trace st' = trace st ++ [send_effect st target_ws (PairingFailed (default "" msg))] ∧
  paired_devices st' = paired_devices st ∧
  disk st' = disk st.
Proof.
  intros Hg st'. unfold st'.
  unfold Relay.handle_message, dispatch, on_pair_response.
  unfold bind, gets, local_device_id, PyDict.contains, devices_getitem. simpl.
  rewrite Hg. simpl. rewrite Hg. simpl.
  unfold send, send_effect. by destruct (decide (target_ws ∈ lost st)).
Qed.

(** X6.  A [pair_response] with [accepted] false creates no pairing; its
    only effect is a [pairing_failed] carrying the host's message, written
    to the companion named as target.  The host itself is told nothing. *)
Theorem rejected_pairing_notifies_companion_only st ws target target_ws msg :
  PyDict.get target (devices st) = Some target_ws →
  let st' := handle_message ws (PairResponse target false msg) st in
  trace st' = trace st ++ [send_effect st target_ws (PairingFailed (default "" msg))] ∧
  paired_devices st' = paired_devices st ∧
  disk st' = disk st.
Proof. apply pair_response_reject_state. Qed.

(** X7.  Relaying to a paired device that is not in the connection registry
    is answered at once with [relay_failed] "Target device is offline"; the
    message is not kept for later. *)
Theorem relay_to_offline_peer_fails st ws target mtype body :
  is_paired (default None (tasks st !! ws)) target st = true →
  PyDict.get target (devices st) = None →
  handle_message ws (RelayMessage target mtype body) st
  = emit (send_effect st ws (RelayFailed "Target device is offline")) st.
Proof.
  intros Hp Hg. apply relay_message_offline; [done|]. by apply contains_false.
Qed.
End pairing_outcomes.

Section pairing_outcomes_witnesses.
Import Relay.
Local Open Scope list_scope.

Lemma accepted_pairing_is_symmetric_witness :
  let st' := Scenario.handle 1 (PairResponse (Some "mob_1") true None)
               Scenario.two_registered in
  is_paired (default None (tasks Scenario.two_registered !! 1)) (Some "mob_1") st' = true ∧
  is_paired (Some "mob_1") (default None (tasks Scenario.two_registered !! 1)) st' = true.
Proof.
  apply (accepted_pairing_is_symmetric
           Scenario.demo_clock Scenario.demo_sha Scenario.demo_iter Scenario.two_registered 1
           (Some "mob_1") None).
  vm_compute. reflexivity.
Defined.

Lemma rejected_pairing_notifies_companion_only_witness :
  let st := Scenario.two_registered in
  let st' := Scenario.handle 1
               (PairResponse (Some "mob_1") false (Some "Invalid pairing code")) st in
  trace st' =
    trace st ++ [send_effect st 2 (PairingFailed (default "" (Some "Invalid pairing code")))] ∧
  paired_devices st' = paired_devices st ∧
  disk st' = disk st.
Proof.
  apply (rejected_pairing_notifies_companion_only
           Scenario.demo_clock Scenario.demo_sha Scenario.demo_iter Scenario.two_registered 1
           (Some "mob_1") 2 (Some "Invalid pairing code")).
  vm_compute. reflexivity.
Defined.

Lemma relay_to_offline_peer_fails_witness :
  let st := Scenario.exec Scenario.host_paired [HandlerExit 2] in
  Scenario.handle 1 (RelayMessage (Some "mob_1") None None) st
  = emit (send_effect st 1 (RelayFailed "Target device is offline")) st.
Proof.
  apply (relay_to_offline_peer_fails
           Scenario.demo_clock Scenario.demo_sha Scenario.demo_iter
           (Scenario.exec Scenario.host_paired [HandlerExit 2]) 1
           (Some "mob_1") None None).
  - vm_compute. reflexivity.
  - vm_compute. reflexivity.
Defined.
End pairing_outcomes_witnesses.

(** ** Registration replies *)

Section registration_replies.
Import Relay.
Local Open Scope list_scope.
Variable clock : nat → string.
Variable sha256_hexdigest : string → string.
Variable iter_pairs : Relay.relay → list (pyid * pyid).

Local Abbreviation handle_message := (handle_message clock sha256_hexdigest iter_pairs).

Lemma my_pairings_ext pairs id st st' :
  device_info st' = device_info st →
  my_pairings pairs id st' = my_pairings pairs id st.
Proof. unfold my_pairings. by intros ->. Qed.

(** X8.  The peers listed for a device are exactly the devices it is paired
    with (in either order) that have a directory entry, each with the name
    and type of that entry, in whatever order the pairing set is gone
    through. *)
Theorem my_pairings_lists_known_peers pairs id st peer name type :
  pairs ≡ₚ elements (paired_devices st) →
  PairingEntry peer name type ∈ my_pairings pairs id st ↔
  is_paired id peer st = true ∧
  ∃ r, device_info st !! peer = Some r ∧ device_name r = name ∧ device_type r = type.
Proof.
  intros Hpairs.
  assert (Hin : ∀ pair, pair ∈ pairs ↔ pair ∈ paired_devices st).
  { intros pair. by rewrite Hpairs, elem_of_elements. }
  unfold my_pairings. rewrite list_elem_of_omap. split.
  - intros ([a b] & Hab & Hentry). apply Hin in Hab.
    destruct (in_pair id (a, b)) eqn:Hip; [|done].
    apply in_pair_spec in Hip. simpl in *.
    destruct (decide (a = id)) as [->|Hne].
    + destruct (device_info st !! b) as [r|] eqn:Hr; simplify_eq/=.
      split; [apply is_paired_spec; auto|eauto].
    + destruct Hip as [? | ->]; [done|].
      destruct (device_info st !! a) as [r|] eqn:Hr; simplify_eq/=.
      split; [apply is_paired_spec; auto|eauto].
  - intros (Hp & r & Hr & <- & <-). apply is_paired_spec in Hp.
    destruct Hp as [Hab|Hab].
    + exists (id, peer). split; [by apply Hin|].
      unfold in_pair. simpl. rewrite bool_decide_eq_true_2 by done. simpl.
      rewrite decide_True by done. by rewrite Hr.
    + exists (peer, id). split; [by apply Hin|].
      unfold in_pair. simpl.
      rewrite (bool_decide_eq_true_2 (id = id)) by done. rewrite orb_true_r.
      destruct (decide (peer = id)) as [->|Hne]; by rewrite Hr.
Qed.

Lemma bind_send {B} ws m (k : unit → M B) st :
  ws ∉ lost st → bind (send ws m) k st = k tt (emit (Sent ws m) st).
Proof. intros Hws. unfold bind, send. by rewrite decide_False. Qed.

(** Lines 122-140 on a writable connection. *)
Lemma existing_pairings_trace ws id st :
  ws ∉ lost st →
  trace ((pairings <- gets (λ st, my_pairings (iter_pairs st) id st) ;;
          match pairings with
          | [] => ret tt
          | _ =>
              send ws
                (ExistingPairings pairings
                   ("Found " +:+ pretty (length pairings) +:+ " existing pairing(s)"))
          end) st).2 =
  trace st ++
    match my_pairings (iter_pairs st) id st with
    | [] => []
    | pairings =>
        [Sent ws (ExistingPairings pairings
                    ("Found " +:+ pretty (length pairings) +:+ " existing pairing(s)"))]
    end.
Proof.
  intros Hws. rewrite bind_gets. cbv beta.
  destruct (my_pairings (iter_pairs st) id st) as [|e es].
  - simpl. by rewrite app_nil_r.
  - unfold send. by rewrite decide_False.
Qed.

(** What [register] does on a writable connection when the fingerprint can
    be computed; [s] is the state in which the pairing set is gone
    through. *)
Lemma register_trace st ws (id : string) ty name :
  fingerprint_raises (Some id) name = false →
  ws ∉ lost st →
  let st' := handle_message ws (Register (Some id) ty name) st in
  ∃ s,
    paired_devices s = paired_devices st ∧
    trace st' =
      trace st ++
        [ Saved (device_info st') (paired_devices st);
          Sent ws (Registered (Some id)
                     (bool_decide (is_Some (device_info st !! Some id)))
                     (py_str ty +:+ " registered successfully")) ] ++
        match my_pairings (iter_pairs s) (Some id) st' with
        | [] => []
        | pairings =>
            [Sent ws (ExistingPairings pairings
                        ("Found " +:+ pretty (length pairings) +:+ " existing pairing(s)"))]
        end.
Proof.
  intros Hclean Hws st'.
  pose proof (register_directory clock sha256_hexdigest iter_pairs st ws (Some id) ty name)
    as Hi.
  fold st' in Hi. rewrite Hclean in Hi.
  set (info := device_info st') in *.
  assert (Hmine : ∀ pairs, my_pairings pairs (Some id) st'
                  = my_pairings pairs (Some id) (with_device_info (λ _, info) st))
    by (intros; by apply my_pairings_ext).
  setoid_rewrite Hmine. clear Hmine. clearbody info.
  unfold st'. clear st'.
  unfold Relay.handle_message, dispatch, on_register.
  cbv zeta. run_head. unfold generate_device_fingerprint.
  rewrite fingerprint_encode, Hclean. run_head.
  cbn [device_info with_devices with_tasks].
  destruct (device_info st !! Some id) as [r|] eqn:Hr.
  - rewrite bool_decide_eq_true_2 by eauto. cbn [negb]. run_head.
    unfold save_persistent_data. run_head. cbn [slice8]. run_head.
    rewrite bind_send by exact Hws. cbv beta.
    rewrite existing_pairings_trace by exact Hws.
    match goal with |- context [iter_pairs ?s] => set (s4 := s) end.
    exists s4. split; [done|].
    rewrite (my_pairings_ext _ _ (with_device_info (λ _, info) st) s4)
      by (by rewrite Hi).
    subst info. simpl. by rewrite <- !app_assoc.
  - rewrite bool_decide_eq_false_2 by (by intros [? ?]). cbn [negb]. run_head.
    unfold save_persistent_data. run_head. cbn [slice8]. run_head.
    rewrite bind_send by exact Hws. cbv beta.
    rewrite existing_pairings_trace by exact Hws.
    match goal with |- context [iter_pairs ?s] => set (s4 := s) end.
    exists s4. split; [done|].
    rewrite (my_pairings_ext _ _ (with_device_info (λ _, info) st) s4)
      by (by rewrite Hi).
    subst info. simpl. by rewrite <- !app_assoc.
Qed.

(** X9.  On a writable connection, registering under a string identifier
    (with no lone surrogate in the identifier or the name) saves the
    directory, then answers [registered] whose [is_known_device] flag tells
    whether the identifier had a directory entry before, then sends
    [existing_pairings] if and only if the list of known peers is not
    empty.  The peers are listed in the order in which the pairing set is
    gone through, whatever that order is. *)
Theorem register_reply st ws (id : string) ty name :
  iterates_set iter_pairs →
  fingerprint_raises (Some id) name = false →
  ws ∉ lost st →
  let st' := handle_message ws (Register (Some id) ty name) st in
  ∃ pairs,
    pairs ≡ₚ elements (paired_devices st) ∧
    trace st' =
      trace st ++
        [ Saved (device_info st') (paired_devices st);
          Sent ws (Registered (Some id)
                     (bool_decide (is_Some (device_info st !! Some id)))
                     (py_str ty +:+ " registered successfully")) ] ++
        match my_pairings pairs (Some id) st' with
        | [] => []
        | pairings =>
            [Sent ws (ExistingPairings pairings
                        ("Found " +:+ pretty (length pairings) +:+ " existing pairing(s)"))]
        end.
Proof.
  intros Hiter Hclean Hws st'.
  destruct (register_trace st ws id ty name Hclean Hws) as (s & Hs & Htrace).
  exists (iter_pairs s). split; [|exact Htrace].
  rewrite <- Hs. apply Hiter.
Qed.
End registration_replies.

Section registration_replies_witnesses.
Import Relay.
Local Open Scope list_scope.

Lemma my_pairings_lists_known_peers_witness :
  PairingEntry (Some "mob_1") "Phone" (Some "mobile")
  ∈ my_pairings (elements (paired_devices Scenario.host_paired)) (Some "host_1")
      Scenario.host_paired.
Proof.
  apply (my_pairings_lists_known_peers
           (elements (paired_devices Scenario.host_paired)) (Some "host_1")
           Scenario.host_paired (Some "mob_1") "Phone" (Some "mobile")).
  - reflexivity.
  - split; [vm_compute; reflexivity|].
    eexists. split; [vm_compute; reflexivity|]. split; reflexivity.
Defined.

Lemma register_reply_witness :
  let st := Scenario.host_paired in
  let st' := Scenario.handle 2 (Register (Some "mob_1") (Some "mobile") None) st in
  ∃ pairs,
    pairs ≡ₚ elements (paired_devices st) ∧
    trace st' =
      trace st ++
        [ Saved (device_info st') (paired_devices st);
          Sent 2 (Registered (Some "mob_1")
                    (bool_decide (is_Some (device_info st !! Some "mob_1")))
                    (py_str (Some "mobile") +:+ " registered successfully")) ] ++
        match my_pairings pairs (Some "mob_1") st' with
        | [] => []
        | pairings =>
            [Sent 2 (ExistingPairings pairings
                       ("Found " +:+ pretty (length pairings) +:+ " existing pairing(s)"))]
        end.
Proof.
  apply (register_reply Scenario.demo_clock Scenario.demo_sha Scenario.demo_iter
           Scenario.host_paired 2 "mob_1" (Some "mobile") None).
  - intros s. reflexivity.
  - vm_compute. reflexivity.
  - vm_compute. intros H. discriminate H.
Defined.
End registration_replies_witnesses.

(** ** Registration without an identifier, and what the directory keeps *)

Section directory_facts.
Import Relay.
Local Open Scope list_scope.
Variable clock : nat → string.
Variable sha256_hexdigest : string → string.
Variable iter_pairs : Relay.relay → list (pyid * pyid).

Local Abbreviation handle_message := (handle_message clock sha256_hexdigest iter_pairs).
Local Abbreviation step := (step clock sha256_hexdigest iter_pairs).
Local Abbreviation run := (run clock sha256_hexdigest iter_pairs).

(** Whatever [register] goes through when [device_id] is missing, it
    writes to no websocket. *)
Lemma register_without_id_writes st ws ty name :
  writes (trace (handle_message ws (Register None ty name) st)) = writes (trace st).
Proof.
  destruct (fingerprint_raises None name) eqn:Hraise.
  { by rewrite register_raises. }
  unfold Relay.handle_message, dispatch, on_register.
  cbv zeta. run_head. unfold generate_device_fingerprint.
  rewrite fingerprint_encode, Hraise. run_head.
  destruct (negb _); run_head; unfold save_persistent_data; run_head;
    cbn [slice8]; run_head; simpl; unfold writes; rewrite omap_app; simpl;
    by rewrite app_nil_r.
Qed.

(** X10.  A [register] message without [device_id] is never answered: the
    log line that slices the identifier raises before [registered] is
    written.  The connection is nevertheless entered in the registry under
    [None]; and when the name holds no lone surrogate, a directory entry is
    created or refreshed and, if no file operation of the save raises,
    written to the files. *)
Theorem register_without_id_gets_no_reply st ws ty name :
  fingerprint_raises None name = false →
  let st' := handle_message ws (Register None ty name) st in
  writes (trace st') = writes (trace st) ∧
  PyDict.get None (devices st') = Some ws ∧
  is_Some (device_info st' !! None) ∧
  (next_fault st = None → flushed st').
Proof.
  intros Hclean st'.
  destruct (register_registry clock sha256_hexdigest iter_pairs st ws None ty name)
    as (Hd & _).
  pose proof (register_directory clock sha256_hexdigest iter_pairs st ws None ty name)
    as Hi.
  fold st' in Hd, Hi. rewrite Hclean in Hi. split_and!.
  - apply register_without_id_writes.
  - rewrite Hd. apply get_set_eq.
  - rewrite Hi. destruct (device_info st !! None) as [r|] eqn:Hr.
    + rewrite lookup_alter_eq, Hr. eauto.
    + rewrite lookup_insert_eq. eauto.
  - apply saved_first_flushed.
    by apply (register_saved clock sha256_hexdigest iter_pairs st ws None ty name).
Qed.

Lemma touch_touch t t' r : touch t' (touch t r) = touch t' r.
Proof. by destruct r. Qed.

Lemma touch_same r : touch (last_seen r) r = r.
Proof. by destruct r. Qed.

Lemma handler_exit_directory st ws :
  device_info (handler_exit clock ws st) = device_info st ∨
  ∃ t i, device_info (handler_exit clock ws st) = alter (touch t) i (device_info st).
Proof.
  unfold handler_exit, cleanup, local_device_id. cbn [device_info with_tasks].
  run_head. destruct (py_truthy _ && _); [|by left]. run_head.
  destruct (bool_decide _); run_head; [|by left].
  right. eexists _, _. reflexivity.
Qed.

Lemma message_directory st ws m :
  device_info (handle_message ws m st) = device_info st ∨
  (∃ t i, device_info (handle_message ws m st) = alter (touch t) i (device_info st)) ∨
  (∃ i r, device_info st !! i = None ∧
          device_info (handle_message ws m st) = <[i := r]> (device_info st)).
Proof.
  destruct m as [id ty name|code name|target acc msg|target|target mt body| |];
    try (left; by apply message_keeps_directory).
  - rewrite register_directory.
    destruct (fingerprint_raises id name); [by left|].
    destruct (device_info st !! id) eqn:Hr; eauto 10.
  - unfold Relay.handle_message, send. case_decide; simpl; [|by left].
    destruct (handler_exit_directory
                (emit (SendRaised ws (Error "Invalid JSON")) st) ws) as [?|?]; auto.
Qed.

Lemma entry_survives (m m' : gmap pyid device_record) k r :
  m !! k = Some r →
  m' = m ∨
  (∃ t i, m' = alter (touch t) i m) ∨
  (∃ i r', m !! i = None ∧ m' = <[i := r']> m) →
  ∃ t, m' !! k = Some (touch t r).
Proof.
  intros Hk [->|[(t & i & ->)|(i & r' & Hi & ->)]].
  - exists (last_seen r). by rewrite touch_same.
  - destruct (decide (i = k)) as [->|Hne].
    + exists t. by rewrite lookup_alter_eq, Hk.
    + exists (last_seen r). by rewrite lookup_alter_ne, touch_same.
  - exists (last_seen r). rewrite touch_same, lookup_insert_ne; [done|].
    intros ->. congruence.
Qed.

Lemma step_keeps_entry st ev k r :
  device_info st !! k = Some r →
  ∃ t, device_info (step st ev) !! k = Some (touch t r).
Proof.
  intros Hk. apply (entry_survives (device_info st)); [done|].
  destruct ev as [ws|ws m|ws|ws]; simpl; auto.
  - case_decide; [|auto]. apply message_directory.
  - case_decide; [|auto].
    destruct (handler_exit_directory (with_lost (λ s, {[ws]} ∪ s) st) ws); auto.
Qed.

Lemma run_keeps_entry st evs k r :
  device_info st !! k = Some r →
  ∃ t, device_info (run st evs) !! k = Some (touch t r).
Proof.
  revert st r. induction evs as [|ev evs IH]; intros st r Hk; simpl.
  - exists (last_seen r). by rewrite touch_same.
  - destruct (step_keeps_entry st ev k r Hk) as [t Ht].
    destruct (IH _ _ Ht) as [t' Ht']. exists t'. by rewrite <- (touch_touch t).
Qed.

(** X11.  The relay never deletes or rewrites a directory entry: whatever
    happens afterwards, an entry keeps its type, name, fingerprint and
    [first_seen]; only [last_seen] can differ. *)
Theorem directory_entry_is_kept st evs k r :
  device_info st !! k = Some r →
  ∃ t, device_info (run st evs) !! k = Some (touch t r).
Proof. apply run_keeps_entry. Qed.

(** X12.  A device that has registered once is reported as known whenever it
    registers again with an identifier and a name that hold no lone
    surrogate, on any connection and after any history in between. *)
Theorem registered_device_is_known_later st evs ws (id : string) ty name r :
  device_info st !! Some id = Some r →
  fingerprint_raises (Some id) name = false →
  ws ∉ lost (run st evs) →
  ∃ shown,
    delivered (trace (handle_message ws (Register (Some id) ty name) (run st evs))) =
    delivered (trace (run st evs)) ++
      (ws, Registered (Some id) true (py_str ty +:+ " registered successfully")) :: shown.
Proof.
  intros Hk Hclean Hws.
  destruct (run_keeps_entry st evs (Some id) r Hk) as [t Ht].
  destruct (register_trace clock sha256_hexdigest iter_pairs (run st evs) ws id ty name
              Hclean Hws) as (s & _ & Htrace).
  rewrite Htrace.
  rewrite bool_decide_eq_true_2 by (rewrite Ht; eauto).
  unfold delivered. rewrite omap_app. simpl.
  eexists. reflexivity.
Qed.
End directory_facts.

Section directory_witnesses.
Import Relay.
Local Open Scope list_scope.

Lemma directory_entry_is_kept_witness :
  ∃ t, device_info
         (Scenario.exec Scenario.two_registered
            [ Message 2 (Register (Some "mob_1") None (Some "Other name"));
              HandlerExit 2 ]) !! Some "mob_1"
       = Some (touch t (DeviceRecord (Some "mobile") "Phone" "sha256:mob_1:Pho"
                          "2024-01-01T00:00:02" "2024-01-01T00:00:03")).
Proof.
  apply (directory_entry_is_kept Scenario.demo_clock Scenario.demo_sha Scenario.demo_iter
           Scenario.two_registered).
  vm_compute. reflexivity.
Defined.

Lemma registered_device_is_known_later_witness :
  ∃ shown,
    delivered (trace (Scenario.handle 3 (Register (Some "mob_1") (Some "mobile") None)
                        (Scenario.exec Scenario.two_registered [HandlerExit 2; Connect 3]))) =
    delivered (trace (Scenario.exec Scenario.two_registered [HandlerExit 2; Connect 3])) ++
      (3, Registered (Some "mob_1") true
            (py_str (Some "mobile") +:+ " registered successfully")) :: shown.
Proof.
  apply (registered_device_is_known_later Scenario.demo_clock Scenario.demo_sha Scenario.demo_iter
           Scenario.two_registered [HandlerExit 2; Connect 3] 3 "mob_1"
           (Some "mobile") None
           (DeviceRecord (Some "mobile") "Phone" "sha256:mob_1:Pho"
              "2024-01-01T00:00:02" "2024-01-01T00:00:03")).
  - vm_compute. reflexivity.
  - vm_compute. reflexivity.
  - vm_compute. intros H. discriminate H.
Defined.

Lemma register_without_id_gets_no_reply_witness :
  let st := Scenario.first_session in
  let st' := Scenario.handle 2 (Register None (Some "mobile") (Some "Phone")) st in
  writes (trace st') = writes (trace st) ∧
  PyDict.get None (devices st') = Some 2 ∧
  is_Some (device_info st' !! None) ∧
  flushed st'.
Proof.
  destruct (register_without_id_gets_no_reply
              Scenario.demo_clock Scenario.demo_sha Scenario.demo_iter
              Scenario.first_session 2 (Some "mobile") (Some "Phone"))
    as (Hwrites & Hget & Hentry & Hflushed).
  - vm_compute. reflexivity.
  - split_and!; [exact Hwrites|exact Hget|exact Hentry|].
    apply Hflushed. reflexivity.
Defined.
End directory_witnesses.

(** ** Leaving *)

Section leaving.
Import Relay.
Local Open Scope list_scope.
Variable clock : nat → string.
Variable sha256_hexdigest : string → string.
Variable iter_pairs : Relay.relay → list (pyid * pyid).

Local Abbreviation step := (step clock sha256_hexdigest iter_pairs).
Local Abbreviation run := (run clock sha256_hexdigest iter_pairs).

Lemma get_del_eq {K V} `{EqDecision K} (k : K) (d : list (K * V)) :
  NoDup (PyDict.keys d) → PyDict.get k (PyDict.del k d) = None.
Proof.
  unfold PyDict.keys. induction d as [|[k0 v0] d IH]; simpl; [done|].
  rewrite NoDup_cons. intros [Hk0 Hnd].
  destruct (decide (k0 = k)) as [->|Hne]; simpl.
  - destruct (PyDict.get k d) as [v|] eqn:Hg; [|done].
    destruct Hk0. by apply (get_Some_keys _ v).
  - rewrite decide_False by done. by apply IH.
Qed.

Lemma keys_set_nodup {K V} `{EqDecision K} (k : K) (v : V) (d : list (K * V)) :
  NoDup (PyDict.keys d) → NoDup (PyDict.keys (PyDict.set k v d)).
Proof.
  unfold PyDict.keys. induction d as [|[k0 v0] d IH]; simpl.
  - intros _. apply NoDup_singleton.
  - rewrite NoDup_cons. intros [Hk0 Hnd].
    destruct (decide (k0 = k)) as [->|Hne]; simpl.
    + by apply NoDup_cons.
    + apply NoDup_cons. split; [|by apply IH].
      intros Hin. apply keys_set in Hin as [?|?]; done.
Qed.

Lemma keys_del_nodup {K V} `{EqDecision K} (k : K) (d : list (K * V)) :
  NoDup (PyDict.keys d) → NoDup (PyDict.keys (PyDict.del k d)).
Proof.
  unfold PyDict.keys. induction d as [|[k0 v0] d IH]; simpl; [done|].
  rewrite NoDup_cons. intros [Hk0 Hnd].
  destruct (decide (k0 = k)) as [->|Hne]; simpl; [done|].
  apply NoDup_cons. split; [|by apply IH].
  intros Hin. by apply keys_del in Hin.
Qed.

(** X13.  When the handler of a connection ends, the registry entry of the
    identifier it last registered (a non-empty string) is deleted, whichever
    connection that entry points to; the directory entry gets a new
    [last_seen] and is saved (the files hold the stores afterwards, no file
    operation of the save raising); the pairing set is not touched. *)
Theorem exit_unregisters_and_keeps_pairings st ws (id : pyid) other r :
  tasks st !! ws = Some id →
  py_truthy id = true →
  NoDup (PyDict.keys (devices st)) →
  PyDict.get id (devices st) = Some other →
  device_info st !! id = Some r →
  next_fault st = None →
  let st' := step st (HandlerExit ws) in
  PyDict.get id (devices st') = None ∧
  device_info st' !! id = Some (touch (clock (ticks st)) r) ∧
  paired_devices st' = paired_devices st ∧
  tasks st' !! ws = None ∧
  flushed st'.
Proof.
  intros Ht Hid Hnd Hg Hr Hok st'. unfold st'. simpl.
  rewrite decide_True by eauto.
  unfold handler_exit, cleanup, bind, gets, local_device_id, modify, now,
    save_persistent_data, PyDict.contains.
  simpl. rewrite Ht. simpl. rewrite Hid, Hg. simpl. rewrite Hr. simpl.
  split_and!.
  - by apply get_del_eq.
  - by rewrite lookup_alter_eq, Hr.
  - done.
  - apply lookup_delete_eq.
  - unfold next_fault in Hok. simpl. unfold next_fault. simpl. rewrite Hok. simpl.
    split; simpl; [rewrite saved_devices_file|rewrite saved_pairings_file]; done.
Qed.

(** X14.  A connection whose identifier is missing or is the empty string
    leaves nothing behind to clean: on exit the registry and the directory
    stay as they are and nothing is saved, so an entry registered under the
    empty string stays in the registry. *)
Theorem exit_with_falsy_id_cleans_nothing st ws (id : pyid) :
  tasks st !! ws = Some id →
  py_truthy id = false →
  let st' := step st (HandlerExit ws) in
  devices st' = devices st ∧
  device_info st' = device_info st ∧
  trace st' = trace st ∧
  tasks st' !! ws = None.
Proof.
  intros Ht Hid st'. unfold st'. simpl.
  rewrite decide_True by eauto.
  unfold handler_exit, cleanup, bind, gets, local_device_id. simpl.
  rewrite Ht. simpl. rewrite Hid. simpl.
  split_and!; try done. apply lookup_delete_eq.
Qed.

Lemma step_keeps_nodup st ev :
  NoDup (PyDict.keys (devices st)) → NoDup (PyDict.keys (devices (step st ev))).
Proof.
  intros Hnd.
  assert (Hexit : ∀ s w, NoDup (PyDict.keys (devices s)) →
                         NoDup (PyDict.keys (devices (handler_exit clock w s)))).
  { intros s w Hs. unfold handler_exit, cleanup, local_device_id.
    cbn [devices with_tasks]. run_head.
    destruct (py_truthy _ && _); [|done]. run_head.
    destruct (bool_decide _); run_head; by apply keys_del_nodup. }
  destruct ev as [ws|ws m|ws|ws]; simpl; try done.
  - case_decide; [|done].
    destruct m as [id ty name|code name|target acc msg|target|target mt body| |];
      try (by rewrite message_keeps_devices).
    + destruct (register_registry clock sha256_hexdigest iter_pairs st ws id ty name)
        as (-> & _).
      by apply keys_set_nodup.
    + unfold handle_message, send. case_decide; simpl; [|done].
      by apply Hexit.
  - case_decide; [|done]. by apply Hexit.
Qed.

Lemma registry_keys_nodup_reachable st evs :
  devices st = [] → NoDup (PyDict.keys (devices (run st evs))).
Proof.
  intros Hempty.
  assert (Hnd : NoDup (PyDict.keys (devices st))).
  { rewrite Hempty. apply NoDup_nil_2. }
  clear Hempty. revert st Hnd.
  induction evs as [|ev evs IH]; intros st Hnd; simpl; [done|].
  apply IH. by apply step_keeps_nodup.
Qed.
End leaving.

Section leaving_witnesses.
Import Relay.
Local Open Scope list_scope.

Lemma exit_unregisters_and_keeps_pairings_witness :
  let st := Scenario.host_paired in
  let st' := Scenario.exec st [HandlerExit 2] in
  PyDict.get (Some "mob_1") (devices st') = None ∧
  device_info st' !! Some "mob_1" =
    Some (touch (Scenario.demo_clock (ticks st))
            (DeviceRecord (Some "mobile") "Phone" "sha256:mob_1:Pho"
               "2024-01-01T00:00:02" "2024-01-01T00:00:03")) ∧
  paired_devices st' = paired_devices st ∧
  tasks st' !! 2 = None ∧
  flushed st'.
Proof.
  apply (exit_unregisters_and_keeps_pairings Scenario.demo_clock Scenario.demo_sha Scenario.demo_iter
           Scenario.host_paired 2 (Some "mob_1") 2).
  - vm_compute. reflexivity.
  - reflexivity.
  - apply (bool_decide_unpack _). vm_compute. exact I.
  - vm_compute. reflexivity.
  - vm_compute. reflexivity.
  - vm_compute. reflexivity.
Defined.

Lemma exit_with_falsy_id_cleans_nothing_witness :
  let st := Scenario.exec Relay.initial
              [Connect 1; Message 1 (Register (Some "") (Some "mobile") None)] in
  let st' := Scenario.exec st [HandlerExit 1] in
  devices st' = devices st ∧
  device_info st' = device_info st ∧
  trace st' = trace st ∧
  tasks st' !! 1 = None.
Proof.
  apply (exit_with_falsy_id_cleans_nothing Scenario.demo_clock Scenario.demo_sha Scenario.demo_iter
           (Scenario.exec Relay.initial
              [Connect 1; Message 1 (Register (Some "") (Some "mobile") None)])
           1 (Some "")).
  - vm_compute. reflexivity.
  - reflexivity.
Defined.

Lemma registry_in_directory_reachable_witness :
  registry_in_directory
    (Scenario.exec Relay.initial
       [ Connect 1; Message 1 (Register (Some "host_1") (Some "laptop") None);
         Connect 2; Message 2 (Register None None None); HandlerExit 1 ]).
Proof.
  apply (registry_in_directory_reachable
           Scenario.demo_clock Scenario.demo_sha Scenario.demo_iter Relay.initial).
  - reflexivity.
  - repeat constructor.
Defined.
End leaving_witnesses.

(** ** Who receives a pairing offer *)

Section offer_delivery.
Import Relay.
Local Open Scope list_scope.
Variable clock : nat → string.
Variable sha256_hexdigest : string → string.
Variable iter_pairs : Relay.relay → list (pyid * pyid).

Local Abbreviation handle_message := (handle_message clock sha256_hexdigest iter_pairs).

(** The connections of the registry entries whose device is a laptop. *)
Local Abbreviation laptop_connection st items c :=
  (∃ k, (k, c) ∈ items ∧ is_laptop st k = true).

Lemma offer_loop_shape items offer : ∀ st,
  ∃ failed (hit : option conn),
    (offer_to_laptops items offer st).1 = Ret (bool_decide (is_Some hit)) ∧
    trace (offer_to_laptops items offer st).2 =
      trace st ++ map (λ c, SendRaised c offer) failed ++
        (match hit with Some c => [Sent c offer] | None => [] end) ∧
    lost (offer_to_laptops items offer st).2 = lost st ∧
    Forall (λ c, c ∈ lost st ∧ laptop_connection st items c) failed ∧
    match hit with
    | Some c => (c ∉ lost st) ∧ laptop_connection st items c
    | None => True
    end.
Proof.
  induction items as [|[k c] items IH]; intros st; simpl.
  - exists [], None. simpl. by rewrite app_nil_r.
  - unfold bind, gets.
    destruct (bool_decide (device_info st !! k ≫= device_type = Some "laptop"))
      eqn:Hk.
    + unfold try_flag, send. destruct (decide (c ∈ lost st)) as [Hl|Hl]; simpl.
      * destruct (IH (emit (SendRaised c offer) st))
          as (failed & hit & Hr & Ht & Hlost & Hf & Hh).
        exists (c :: failed), hit. simpl in *. split_and!; try done.
        -- rewrite Ht. by rewrite <- !app_assoc.
        -- constructor.
           ++ split; [done|]. exists k. split; [apply list_elem_of_here|done].
           ++ eapply Forall_impl; [exact Hf|]. simpl.
              intros c' [? (k' & ? & ?)]. split; [done|].
              exists k'. split; [by apply list_elem_of_further|done].
        -- destruct hit as [c'|]; [|done]. destruct Hh as [? (k' & ? & ?)].
           split; [done|]. exists k'. split; [by apply list_elem_of_further|done].
      * exists [], (Some c). simpl. split_and!; try done.
        exists k. split; [apply list_elem_of_here|done].
    + destruct (IH st) as (failed & hit & Hr & Ht & Hlost & Hf & Hh).
      exists failed, hit. split_and!; try done.
      * eapply Forall_impl; [exact Hf|]. simpl.
        intros c' [? (k' & ? & ?)]. split; [done|].
        exists k'. split; [by apply list_elem_of_further|done].
      * destruct hit as [c'|]; [|done]. destruct Hh as [? (k' & ? & ?)].
        split; [done|]. exists k'. split; [by apply list_elem_of_further|done].
Qed.

(** X15.  A [pair_request] reaches at most one host.  The offer is tried on
    laptop-class registry entries only; every attempt before the last one
    raised, and then either one laptop received the offer or, when none did,
    the companion is answered "No laptops available" and no one else is
    written to. *)
Theorem pair_request_reaches_at_most_one_host st ws code name :
  let offer := PairRequestFwd (default None (tasks st !! ws)) code
                              (default "Mobile" name) in
  let st' := handle_message ws (PairRequest code name) st in
  ∃ failed (hit : option conn),
    trace st' =
      trace st ++ map (λ c, SendRaised c offer) failed ++
        (match hit with
         | Some c => [Sent c offer]
         | None => [send_effect st ws (PairingFailed "No laptops available")]
         end) ∧
    Forall (λ c, c ∈ lost st ∧ laptop_connection st (devices st) c) failed ∧
    match hit with
    | Some c => (c ∉ lost st) ∧ laptop_connection st (devices st) c
    | None => True
    end.
Proof.
  intros offer st'.
  destruct (offer_loop_shape (devices st) offer st)
    as (failed & hit & Hr & Ht & Hlost & Hf & Hh).
  exists failed, hit. split_and!; try done.
  unfold st', Relay.handle_message, dispatch, on_pair_request.
  unfold bind, gets, local_device_id. simpl. fold offer.
  destruct (offer_to_laptops (devices st) offer st) as [o st1]. simpl in *.
  subst o. destruct hit as [c|]; simpl.
  - done.
  - unfold send, send_effect. rewrite Hlost.
    destruct (decide (ws ∈ lost st)); simpl; rewrite Ht;
      by rewrite app_nil_r, <- app_assoc.
Qed.
End offer_delivery.

(** ** Restarting the relay *)

Section restarting.
Import Relay.
Local Open Scope list_scope.
Variable clock : nat → string.
Variable sha256_hexdigest : string → string.
Variable iter_pairs : Relay.relay → list (pyid * pyid).

Local Abbreviation handle_message := (handle_message clock sha256_hexdigest iter_pairs).

(** X16.  Save and load are inverse on the stores: when both files hold the
    stores and no directory key is [None], a restarted relay has the same
    directory and the same pairing set, and an empty connection registry. *)
Theorem restart_restores_stores st :
  flushed st →
  device_info st !! None = None →
  ∃ st0, restart st = Some st0 ∧
         device_info st0 = device_info st ∧
         paired_devices st0 = paired_devices st ∧
         devices st0 = [] ∧
         disk st0 = disk st.
Proof.
  intros [Hd Hp] Hnone. unfold restart, load_persistent_data. simpl.
  rewrite Hd, Hp. unfold json_reload. rewrite Hnone. simpl.
  eexists. split; [reflexivity|]. simpl. split_and!; try done.
  apply list_to_set_elements_L.
Qed.






(** X19.  [main] serves on the first of the five ports 8765..8769 that is
    not in use, provided every port before it failed with "address in use";
    it re-raises at the first port failing with another error, and at port
    8769 when that one is in use too.  It never leaves the loop silently and
    never tries a sixth port. *)
Theorem main_serves_first_free_port (serve : Z → bind_outcome) :
  match main_bind serve with
  | Serving p =>
      (8765 ≤ p ≤ 8769)%Z ∧ serve p = Bound ∧
      Forall (λ q, serve q = AddressInUse)
             (filter (λ q, (q < p)%Z) [8765; 8766; 8767; 8768; 8769]%Z)
  | Reraised p =>
      (8765 ≤ p ≤ 8769)%Z ∧
      (serve p = OtherOSError ∨ (p = 8769%Z ∧ serve p = AddressInUse)) ∧
      Forall (λ q, serve q = AddressInUse)
             (filter (λ q, (q < p)%Z) [8765; 8766; 8767; 8768; 8769]%Z)
  | LoopEnded => False
  end.
Proof.
  unfold main_bind, PORT, MAX_PORT_RETRIES. simpl.
  repeat (match goal with
          | |- context [serve ?p] =>
              lazymatch goal with
              | H : serve p = _ |- _ => fail
              | _ => destruct (serve p) eqn:?; simpl
              end
          end);
    (split_and!; [lia|lia|auto..|];
     repeat (rewrite filter_cons; case_decide; try lia);
     rewrite ?filter_nil; repeat constructor; done).
Qed.
End restarting.

Section restarting_witnesses.
Import Relay.
Local Open Scope list_scope.

Lemma restart_restores_stores_witness :
  ∃ st0, restart Scenario.host_paired = Some st0 ∧
         device_info st0 = device_info Scenario.host_paired ∧
         paired_devices st0 = paired_devices Scenario.host_paired ∧
         devices st0 = [] ∧
         disk st0 = disk Scenario.host_paired.
Proof.
  apply (restart_restores_stores Scenario.host_paired).
  - split; vm_compute; reflexivity.
  - vm_compute. reflexivity.
Defined.


End restarting_witnesses.

(** * Further properties of the host *)

Section host_extras.
Import Laptop.
Local Open Scope list_scope.

(** X20.  A host that holds no pairing code, or the empty one, rejects every
    offer, including an offer that carries no code or the empty code. *)
Theorem host_without_code_rejects_all (self : client) (code from name : pyid) :
  py_truthy (pairing_code self) = false →
  accepts (handle_pair_request self code from name).2 = false.
Proof. intros Hc. by rewrite handle_pair_request_accepts, Hc. Qed.

Lemma paired_entry_known (self : client) peer name persistent msg :
  existsb (λ p, bool_decide (Relay.peer_device_id p = peer))
    (paired_devices (handle_message self (Relay.Paired peer name persistent msg)).1)
  = true.
Proof.
  simpl. destruct (existsb _ (paired_devices self)) eqn:Hex; simpl; [done|].
  rewrite existsb_app. simpl. rewrite bool_decide_eq_true_2 by done.
  by rewrite orb_true_r.
Qed.

(** X21.  A second [paired] notification for a peer already in the list
    changes nothing, whatever name it carries; and a list without two
    entries for one peer identifier stays so through [paired]. *)
Theorem paired_is_recorded_once (self : client) peer name name' persistent
    persistent' msg msg' :
  NoDup (Relay.peer_device_id <$> paired_devices self) →
  let once := (handle_message self (Relay.Paired peer name persistent msg)).1 in
  (handle_message once (Relay.Paired peer name' persistent' msg')).1 = once ∧
  NoDup (Relay.peer_device_id <$> paired_devices once).
Proof.
  intros Hnd once. split.
  - pose proof (paired_entry_known self peer name persistent msg) as Hk.
    fold once in Hk. simpl. by rewrite Hk.
  - unfold once. simpl.
    destruct (existsb _ (paired_devices self)) eqn:Hex; simpl; [done|].
    rewrite fmap_app. simpl. apply NoDup_app. split_and!; [done| |apply NoDup_singleton].
    intros p Hin Hp. apply list_elem_of_singleton in Hp as ->.
    apply list_elem_of_fmap in Hin as (e & He & Hin).
    assert (existsb (λ p, bool_decide (Relay.peer_device_id p = peer))
              (paired_devices self) = true); [|congruence].
    apply existsb_exists. exists e. split; [by apply list_elem_of_In|].
    by apply bool_decide_eq_true_2.
Qed.

(** X22.  [unpaired] undoes [paired]: for a peer that was not in the list,
    a [paired] notification followed by [unpaired] for the same identifier
    gives back the list as it was, and the pairing code is untouched. *)
Theorem unpaired_undoes_paired (self : client) peer name persistent msg msg' :
  Forall (λ p, Relay.peer_device_id p ≠ peer) (paired_devices self) →
  let added := (handle_message self (Relay.Paired peer name persistent msg)).1 in
  let removed := (handle_message added (Relay.Unpaired peer msg')).1 in
  paired_devices removed = paired_devices self ∧
  pairing_code removed = pairing_code self.
Proof.
  intros Hall added removed. unfold removed, added. simpl.
  assert (Hex : existsb (λ p, bool_decide (Relay.peer_device_id p = peer))
                  (paired_devices self) = false).
  { apply not_true_is_false. rewrite existsb_exists.
    intros (e & He & Hp). apply bool_decide_eq_true in Hp.
    rewrite Forall_forall in Hall. apply (Hall e); [by apply list_elem_of_In|done]. }
  rewrite Hex. simpl. split; [|done].
  rewrite filter_app. simpl. rewrite filter_cons_False by (by intros []).
  rewrite filter_nil, app_nil_r.
  clear Hex. induction Hall as [|e l He Hl IH]; [done|].
  rewrite filter_cons_True by done. by rewrite IH.
Qed.

Lemma listen_keeps_code seen : ∀ self,
  pairing_code (listen_for_messages self seen) = pairing_code self.
Proof.
  unfold listen_for_messages.
  induction seen as [|data seen IH]; intros self; simpl; [done|].
  by rewrite IH, handle_message_keeps_code.
Qed.

(** X23.  Whether a connection round shows a new pairing code is decided
    from the pairings the client holds in memory when it connects, before
    any message of that round is handled: with none it ends the round
    holding the freshly generated code, whatever the relay sends (also an
    [existing_pairings] list); with some it keeps the code it had. *)
Theorem code_is_chosen_when_connecting (self : client) (r : Z)
    (seen : list Relay.server_msg) :
  pairing_code (start_round true r seen self) =
    match paired_devices self with
    | [] => Some (pretty (randint 100000 999999 r))
    | _ => pairing_code self
    end.
Proof.
  unfold start_round, after_connect. rewrite listen_keeps_code.
  by destruct (paired_devices self).
Qed.

(** X24.  The host identity is created once: whatever file is found, the
    file left behind by [load_device_identity] makes every later load
    return the same identifier and leave the file alone, also under another
    host name or on another day. *)
Theorem identity_is_stable (sha : string → string)
    (hostname today now_iso hostname' today' now_iso' : string)
    (file : identity_file) :
  let first := load_device_identity sha hostname today now_iso file in
  load_device_identity sha hostname' today' now_iso' first.2 = first.
Proof.
  unfold load_device_identity.
  destruct file as [| |fields]; simpl.
  - by rewrite lookup_insert_eq.
  - by rewrite lookup_insert_eq.
  - destruct (fields !! "device_id") as [device_id|] eqn:Hid; simpl.
    + by rewrite Hid.
    + by rewrite lookup_insert_eq.
Qed.
End host_extras.

Section host_extras_witnesses.
Import Laptop.
Local Open Scope list_scope.

Lemma host_without_code_rejects_all_witness :
  accepts (handle_pair_request (MkClient "Laptop (host)" [] None) None
             (Some "mob_1") None).2 = false.
Proof.
  apply (host_without_code_rejects_all (MkClient "Laptop (host)" [] None)).
  reflexivity.
Defined.

Lemma paired_is_recorded_once_witness :
  let self := MkClient "Laptop (host)"
                [Relay.PairingEntry (Some "mob_0") "Old phone" (Some "mobile")]
                (Some "482913") in
  let once := (handle_message self (Relay.Paired (Some "mob_1") "Phone" true "ok")).1 in
  (handle_message once (Relay.Paired (Some "mob_1") "Renamed" false "again")).1 = once ∧
  NoDup (Relay.peer_device_id <$> paired_devices once).
Proof.
  apply (paired_is_recorded_once
           (MkClient "Laptop (host)"
              [Relay.PairingEntry (Some "mob_0") "Old phone" (Some "mobile")]
              (Some "482913"))
           (Some "mob_1") "Phone" "Renamed" true false "ok" "again").
  simpl. apply NoDup_singleton.
Defined.

Lemma unpaired_undoes_paired_witness :
  let self := MkClient "Laptop (host)"
                [Relay.PairingEntry (Some "mob_0") "Old phone" (Some "mobile")]
                (Some "482913") in
  let added := (handle_message self (Relay.Paired (Some "mob_1") "Phone" true "ok")).1 in
  let removed := (handle_message added (Relay.Unpaired (Some "mob_1") "bye")).1 in
  paired_devices removed = paired_devices self ∧
  pairing_code removed = pairing_code self.
Proof.
  apply (unpaired_undoes_paired
           (MkClient "Laptop (host)"
              [Relay.PairingEntry (Some "mob_0") "Old phone" (Some "mobile")]
              (Some "482913"))
           (Some "mob_1") "Phone" true "ok" "bye").
  repeat constructor. simpl. intros H. discriminate H.
Defined.
End host_extras_witnesses.

(** * The relay and the host together *)

Section pairing_round_trip.
Local Open Scope list_scope.
Variable clock : nat → string.
Variable sha256_hexdigest : string → string.
Variable iter_pairs : Relay.relay → list (pyid * pyid).

Local Abbreviation relay_handle := (Relay.handle_message clock sha256_hexdigest iter_pairs).



End pairing_round_trip.

Section pairing_round_trip_witnesses.
Local Open Scope list_scope.


End pairing_round_trip_witnesses.

(** * Failures the relay swallows *)

Section swallowed_failures.
Import Relay.
Local Open Scope list_scope.
Variable clock : nat → string.
Variable sha256_hexdigest : string → string.
Variable iter_pairs : Relay.relay → list (pyid * pyid).

Local Abbreviation handle_message := (handle_message clock sha256_hexdigest iter_pairs).

(** X28.  A [register] message whose [device_id] or [device_name] holds a
    lone surrogate gets as far as the registry assignment: the connection
    is entered in the registry under the identifier, but no directory entry
    is made or refreshed, nothing is saved and nothing is written to the
    client.  A device that had no directory entry is then connected without
    one. *)
Theorem unencodable_registration_half_registers st ws id ty name :
  fingerprint_raises id name = true →
  let st' := handle_message ws (Register id ty name) st in
  PyDict.get id (devices st') = Some ws ∧
  tasks st' !! ws = Some id ∧
  device_info st' = device_info st ∧
  trace st' = trace st ∧
  disk st' = disk st ∧
  (device_info st !! id = None → ¬ registry_in_directory st').
Proof.
  intros Hraise st'. unfold st'. rewrite register_raises by done. simpl.
  split_and!; try done.
  - apply get_set_eq.
  - apply lookup_insert_eq.
  - intros Hnone Hinv.
    destruct (registry_lookup _ id ws Hinv) as [r Hr].
    + simpl. apply get_set_eq.
    + simpl in Hr. congruence.
Qed.

End swallowed_failures.

Section swallowed_failures_witnesses.
Import Relay.
Local Open Scope list_scope.

Lemma unencodable_registration_half_registers_witness :
  let lone := String "237" (String "160" (String "128" "")) in
  let st := Scenario.first_session in
  let st' := Scenario.handle 2 (Register (Some "mob_1") (Some "mobile") (Some lone)) st in
  PyDict.get (Some "mob_1") (devices st') = Some 2 ∧
  device_info st' = device_info st ∧
  trace st' = trace st ∧
  ¬ registry_in_directory st'.
Proof.
  intros lone st st'.
  destruct (unencodable_registration_half_registers
              Scenario.demo_clock Scenario.demo_sha Scenario.demo_iter
              Scenario.first_session 2 (Some "mob_1") (Some "mobile") (Some lone))
    as (Hget & _ & Hinfo & Htrace & _ & Hbroken).
  - vm_compute. reflexivity.
  - split_and!; [exact Hget|exact Hinfo|exact Htrace|].
    apply Hbroken. vm_compute. reflexivity.
Defined.

End swallowed_failures_witnesses.
